(** * Loan sizer: the loan-terms calculation and its validation rules

    A shallow embedding of [src/app/page.tsx]: the form schema
    [loanSizerSchema], the formula table [loanFormulas], the rule table
    [validationRules], and the component functions [validateInputs],
    [calculateLoan] and [onSubmit].

    JavaScript numbers are IEEE 754 binary64 values; they are modelled by
    Rocq's primitive floats, whose operations are the same binary64
    operations (round to nearest, ties to even), with NaN, the two
    infinities and the two zeros. *)

From Stdlib Require Import Floats ZArith String List Bool Lia.
Import ListNotations.

Set Warnings "-inexact-float".

Local Open Scope float_scope.

(** ** JavaScript primitives used by the page *)

Module JS.

Definition number := float.

(** [a >= b] and [a > b]; false as soon as one side is NaN. *)
Definition ge (a b : number) : bool := b <=? a.
Definition gt (a b : number) : bool := b <? a.

(** [Math.max(a, b)]: NaN if either is NaN, [+0] is larger than [-0]. *)
Definition Math_max (a b : number) : number :=
  if is_nan a || is_nan b then nan
  else if a <? b then b
  else if b <? a then a
  else if get_sign a then b else a.

(** The number an integer denotes (exact when [|n| <= 2^53]). *)
Definition of_Z (n : Z) : number :=
  SF2Prim (binary_normalize prec emax n 0 false).

(** [Math.round(x)]: the integral number closest to [x], ties towards
    [+Infinity]; NaN, infinities and integral numbers are returned as they
    are; a result of zero keeps the sign of [x].  The finite case works on
    the exact value [(-1)^s * m * 2^e] of [x]. *)
Definition round_half_up (s : bool) (m : positive) (e : Z) : Z :=
  ((cond_Zopp s (Zpos m) + 2 ^ (- e - 1)) / 2 ^ (- e))%Z.

Definition Math_round (x : number) : number :=
  match Prim2SF x with
  | S754_finite s m e =>
      if (0 <=? e)%Z then x
      else
        let n := round_half_up s m e in
        if (n =? 0)%Z then (if s then neg_zero else zero) else of_Z n
  | _ => x
  end.

(** [Math.pow(base, exponent)] for an integral exponent.  ECMAScript makes
    [Math.pow] an implementation-approximated function: its last bits are
    those of the engine's mathematical library and differ between engines.
    The definition here, by repeated multiplication, is one such
    approximation and is not bit for bit that of any particular engine, so
    a monthly payment computed through it can differ from the page's in its
    last bits, and after [Math.round] by one unit where the payment is
    within those bits of a half.  The statements below use the monthly
    payment symbolically only: none asserts a value computed through
    [Math_pow]. *)
Definition Math_pow (base : number) (exponent : Z) : number :=
  match exponent with
  | Z0 => 1
  | Zpos p => Pos.iter_op PrimFloat.mul p base
  | Zneg p => 1 / Pos.iter_op PrimFloat.mul p base
  end.

(** A template literal: its literal chunks and interpolated numbers, in
    order.  The text of an interpolated number (Number::toString) is left
    to whoever displays the message. *)
Inductive chunk : Type :=
| Lit (s : string)
| Interp (x : number).

Definition template := list chunk.

End JS.

Import JS.

Notation "a >=? b" := (JS.ge a b) (at level 70, no associativity) : float_scope.
Notation "a >? b" := (JS.gt a b) (at level 70, no associativity) : float_scope.

(** ** The form and its schema *)

(** [LoanSizerForm = z.infer<typeof loanSizerSchema>]; the number inputs are
    registered with [valueAsNumber], so an empty input arrives as NaN. *)
Record LoanSizerForm : Type := {
  address : string;
  transactionType : string;
  purchasePrice : number;
  rehabBudget : number;
  arv : number;
  borrowerFico : number;
  borrowerExperience : string
}.

(** Loan calculation formulas. *)
Module loanFormulas.

Definition maxLoanAmount (arv ltv : number) : number := arv * (ltv / 100).

Definition interestRate (fico : number) (experience : string) : number :=
  let baseRate := 8.5 in
  let baseRate :=
    if fico >=? 750 then baseRate - 1.5
    else if fico >=? 700 then baseRate - 1.0
    else if fico >=? 650 then baseRate - 0.5
    else baseRate in
  let baseRate :=
    if String.eqb experience "Professional" then baseRate - 0.5
    else if String.eqb experience "Experienced" then baseRate - 0.25
    else baseRate in
  Math_max baseRate 6.0.

Definition ltvByExperience (experience : string) : number :=
  if String.eqb experience "Professional" then 85
  else if String.eqb experience "Experienced" then 80
  else if String.eqb experience "Intermediate" then 75
  else if String.eqb experience "Beginner" then 70
  else 70.

Definition closingCosts (loanAmount : number) : number := loanAmount * 0.03.

Definition originationFee (loanAmount : number) : number := loanAmount * 0.01.

End loanFormulas.

(** Validation rules.  The component functions read this module-level object
    when they run; the embedding passes it to them explicitly. *)
Record ValidationRules : Type := {
  minFico : number;
  maxRehabBudget : number -> number;
  minArvToPurchaseRatio : number
}.

Definition validationRules : ValidationRules := {|
  minFico := 650;
  maxRehabBudget := fun purchasePrice => purchasePrice * 0.5;
  minArvToPurchaseRatio := 1.2
|}.

(** ** The zod schema [loanSizerSchema]

    An issue names the field it is about; the message is the one the schema
    gives, or [None] where the schema leaves zod's default text. *)
Inductive issue_code : Type := invalid_type | too_small | too_big | invalid_enum_value.

Record ZodIssue : Type := {
  path : string;
  code : issue_code;
  message : option string
}.

Module z.

(** One check of a field: the issues it raises. *)
Definition check := list ZodIssue.

(** [z.string().min(n, msg)] *)
Definition string_min (path : string) (n : nat) (msg : string) (v : string) : check :=
  if Nat.ltb (String.length v) n
  then [ {| path := path; code := too_small; message := Some msg |} ]
  else [].

(** [z.enum(options)] *)
Definition enum (path : string) (options : list string) (v : string) : check :=
  if existsb (String.eqb v) options then []
  else [ {| path := path; code := invalid_enum_value; message := None |} ].

(** [.min(bound, msg)] and [.max(bound, msg)] on a number; both bounds are
    inclusive. *)
Definition min (path : string) (bound : number) (msg : option string) (v : number) : check :=
  if v <? bound then [ {| path := path; code := too_small; message := msg |} ] else [].

Definition max (path : string) (bound : number) (msg : option string) (v : number) : check :=
  if v >? bound then [ {| path := path; code := too_big; message := msg |} ] else [].

(** [z.number()] followed by its refinements: NaN is not a number for zod
    and stops the field's checks there. *)
Definition number (path : string) (refinements : list (number -> check)) (v : number) : check :=
  if is_nan v then [ {| path := path; code := invalid_type; message := None |} ]
  else flat_map (fun refine => refine v) refinements.

End z.

(** Validation schema for the loan sizer form. *)
Definition loanSizerSchema (data : LoanSizerForm) : list ZodIssue :=
  z.string_min "address" 1 "Address is required" data.(address)
  ++ z.enum "transactionType" ["Purchase"; "Refinance"; "Cash-Out Refinance"]%string
       data.(transactionType)
  ++ z.number "purchasePrice"
       [z.min "purchasePrice" 1000 (Some "Purchase price must be at least $1,000"%string)]
       data.(purchasePrice)
  ++ z.number "rehabBudget"
       [z.min "rehabBudget" 0 (Some "Rehab budget cannot be negative"%string)]
       data.(rehabBudget)
  ++ z.number "arv"
       [z.min "arv" 1000 (Some "ARV must be at least $1,000"%string)]
       data.(arv)
  ++ z.number "borrowerFico"
       [z.min "borrowerFico" 300 None;
        z.max "borrowerFico" 850 (Some "FICO score must be between 300-850"%string)]
       data.(borrowerFico)
  ++ z.enum "borrowerExperience" ["Beginner"; "Intermediate"; "Experienced"; "Professional"]%string
       data.(borrowerExperience).

(** ** The page component *)

(** The computed loan, as kept in the [calculatedLoan] state. *)
Module Loan.
Record t : Type := {
  maxLoanAmount : number;
  interestRate : number;
  ltv : number;
  downPayment : number;
  closingCosts : number;
  originationFee : number;
  monthlyPayment : number;
  totalProjectCost : number;
  approvalStatus : string
}.
End Loan.

(** The constants local to the body of [calculateLoan], before any rounding. *)
Module Locals.
Record t : Type := {
  ltv : number;
  maxLoanAmount : number;
  interestRate : number;
  closingCosts : number;
  originationFee : number;
  totalProjectCost : number;
  downPayment : number;
  monthlyPayment : number
}.
End Locals.

(** The expression bound to [monthlyPayment] in [calculateLoan], as a
    function of the two locals it reads. *)
Definition monthlyPaymentOf (maxLoanAmount interestRate : number) : number :=
  (maxLoanAmount * (interestRate / 100) / 12) /
  (1 - Math_pow (1 + (interestRate / 100) / 12) (-360)).

Definition validateInputs (rules : ValidationRules) (data : LoanSizerForm) : list template :=
  let errors := [] in
  let errors :=
    if data.(borrowerFico) <? rules.(minFico)
    then errors ++ [[Lit "FICO score must be at least "; Interp rules.(minFico);
                     Lit " for approval"]]
    else errors in
  let errors :=
    if data.(rehabBudget) >? rules.(maxRehabBudget) data.(purchasePrice)
    then errors ++ [[Lit "Rehab budget cannot exceed 50% of purchase price"]]
    else errors in
  let errors :=
    if data.(arv) / data.(purchasePrice) <? rules.(minArvToPurchaseRatio)
    then errors ++ [[Lit "ARV should be at least 120% of purchase price for optimal financing"]]
    else errors in
  errors.

Definition calculateLoan_locals (data : LoanSizerForm) : Locals.t :=
  let ltv := loanFormulas.ltvByExperience data.(borrowerExperience) in
  let maxLoanAmount := loanFormulas.maxLoanAmount data.(arv) ltv in
  let interestRate := loanFormulas.interestRate data.(borrowerFico) data.(borrowerExperience) in
  let closingCosts := loanFormulas.closingCosts maxLoanAmount in
  let originationFee := loanFormulas.originationFee maxLoanAmount in
  let totalProjectCost := data.(purchasePrice) + data.(rehabBudget) in
  let downPayment := totalProjectCost - maxLoanAmount in
  let monthlyPayment := monthlyPaymentOf maxLoanAmount interestRate in
  Locals.Build_t ltv maxLoanAmount interestRate closingCosts originationFee
    totalProjectCost downPayment monthlyPayment.

(** The object [calculateLoan] passes to [setCalculatedLoan]; the one-second
    timer and the [isCalculating] flag around it do not change that object. *)
Definition calculateLoan (rules : ValidationRules) (data : LoanSizerForm) : Loan.t :=
  let l := calculateLoan_locals data in
  {| Loan.maxLoanAmount := Math_round l.(Locals.maxLoanAmount);
     Loan.interestRate := Math_round (l.(Locals.interestRate) * 100) / 100;
     Loan.ltv := l.(Locals.ltv);
     Loan.downPayment := Math_round l.(Locals.downPayment);
     Loan.closingCosts := Math_round l.(Locals.closingCosts);
     Loan.originationFee := Math_round l.(Locals.originationFee);
     Loan.monthlyPayment := Math_round l.(Locals.monthlyPayment);
     Loan.totalProjectCost := Math_round l.(Locals.totalProjectCost);
     Loan.approvalStatus :=
       if data.(borrowerFico) >=? rules.(minFico) then "Approved" else "Pending Review" |}.

(** The component state the submit path writes: the schema's field errors
    ([formState.errors]), [validationErrors] and [calculatedLoan]. *)
Record PageState : Type := {
  errors : list ZodIssue;
  validationErrors : list template;
  calculatedLoan : option Loan.t
}.

Definition initialState : PageState :=
  {| errors := []; validationErrors := []; calculatedLoan := None |}.

Definition setErrors (v : list ZodIssue) (st : PageState) : PageState :=
  {| errors := v; validationErrors := st.(validationErrors);
     calculatedLoan := st.(calculatedLoan) |}.

Definition setValidationErrors (v : list template) (st : PageState) : PageState :=
  {| errors := st.(errors); validationErrors := v;
     calculatedLoan := st.(calculatedLoan) |}.

Definition setCalculatedLoan (v : option Loan.t) (st : PageState) : PageState :=
  {| errors := st.(errors); validationErrors := st.(validationErrors);
     calculatedLoan := v |}.

Definition onSubmit (rules : ValidationRules) (data : LoanSizerForm) (st : PageState) : PageState :=
  let validationErrors := validateInputs rules data in
  let st := setValidationErrors validationErrors st in
  if Nat.eqb (List.length validationErrors) 0
  then setCalculatedLoan (Some (calculateLoan rules data)) st
  else st.

(** [handleSubmit(onSubmit)] with [zodResolver(loanSizerSchema)]: the
    handler runs only on data the schema accepts; otherwise the issues
    become the form's field errors and [onSubmit] is not called. *)
Definition handleSubmit (rules : ValidationRules) (data : LoanSizerForm) (st : PageState) : PageState :=
  match loanSizerSchema data with
  | [] => onSubmit rules data (setErrors [] st)
  | issues => setErrors issues st
  end.

(** ** Inputs used in the statements *)

(** The scenario of the specification. *)
Definition scenario : LoanSizerForm := {|
  address := "1 Main St";
  transactionType := "Purchase";
  purchasePrice := 200000;
  rehabBudget := 50000;
  arv := 300000;
  borrowerFico := 760;
  borrowerExperience := "Professional"
|}.

(** The scenario's borrower with a FICO score of 600. *)
Definition scenario600 : LoanSizerForm := {|
  address := "1 Main St";
  transactionType := "Purchase";
  purchasePrice := 200000;
  rehabBudget := 50000;
  arv := 300000;
  borrowerFico := 600;
  borrowerExperience := "Professional"
|}.

(** A deal whose rehab budget is over half the purchase price and whose ARV
    is under 1.2 times the purchase price. *)
Definition overBudgetLowArv : LoanSizerForm := {|
  address := "1 Main St";
  transactionType := "Purchase";
  purchasePrice := 200000;
  rehabBudget := 120000;
  arv := 220000;
  borrowerFico := 700;
  borrowerExperience := "Beginner"
|}.

(** A form with a purchase price of zero. *)
Definition zeroPrice : LoanSizerForm := {|
  address := "1 Main St";
  transactionType := "Purchase";
  purchasePrice := 0;
  rehabBudget := 0;
  arv := 1000;
  borrowerFico := 700;
  borrowerExperience := "Beginner"
|}.

(** An ARV of 1622 for an Intermediate borrower: the maximum loan is 1216.5
    and the closing costs 36.495. *)
Definition halfDollar : LoanSizerForm := {|
  address := "1 Main St";
  transactionType := "Purchase";
  purchasePrice := 1300;
  rehabBudget := 0;
  arv := 1622;
  borrowerFico := 700;
  borrowerExperience := "Intermediate"
|}.

(** ** The interest rate as the specification words it

    A table of FICO tiers, highest first; the borrower gets the discount of
    the first tier reached, and no other. *)
Inductive FicoTier : Type := Fico750 | Fico700 | Fico650.

Definition tierThreshold (t : FicoTier) : number :=
  match t with Fico750 => 750 | Fico700 => 700 | Fico650 => 650 end.

Definition tierDiscount (t : FicoTier) : number :=
  match t with Fico750 => 1.5 | Fico700 => 1.0 | Fico650 => 0.5 end.

Definition qualifies (fico : number) (t : FicoTier) : bool :=
  fico >=? tierThreshold t.

Definition highestTier (fico : number) : option FicoTier :=
  List.find (qualifies fico) [Fico750; Fico700; Fico650].

Definition experienceDiscount (experience : string) : option number :=
  if String.eqb experience "Professional" then Some 0.5
  else if String.eqb experience "Experienced" then Some 0.25
  else None.

Definition less (rate : number) (discount : option number) : number :=
  match discount with
  | Some d => rate - d
  | None => rate
  end.

Definition spec_interestRate (fico : number) (experience : string) : number :=
  Math_max
    (less (less 8.5 (option_map tierDiscount (highestTier fico)))
          (experienceDiscount experience))
    6.0.

(** ** The messages and checks of [validateInputs], one by one *)

Definition ficoMessage (rules : ValidationRules) : template :=
  [Lit "FICO score must be at least "; Interp rules.(minFico); Lit " for approval"].

Definition rehabMessage : template :=
  [Lit "Rehab budget cannot exceed 50% of purchase price"].

Definition arvMessage : template :=
  [Lit "ARV should be at least 120% of purchase price for optimal financing"].

Definition ficoViolated (rules : ValidationRules) (data : LoanSizerForm) : bool :=
  data.(borrowerFico) <? rules.(minFico).

Definition rehabViolated (rules : ValidationRules) (data : LoanSizerForm) : bool :=
  data.(rehabBudget) >? rules.(maxRehabBudget) data.(purchasePrice).

Definition arvViolated (rules : ValidationRules) (data : LoanSizerForm) : bool :=
  data.(arv) / data.(purchasePrice) <? rules.(minArvToPurchaseRatio).

Definition when (b : bool) (m : template) : list template := if b then [m] else [].

(** The issue the schema raises on a purchase price under 1000. *)
Definition purchasePriceIssue : ZodIssue :=
  {| path := "purchasePrice"; code := too_small;
     message := Some "Purchase price must be at least $1,000"%string |}.

(** ** Term sheets: the two buttons and [TermSheetService]

    [TermSheetData], the record both buttons build from the current form
    values ([watch()]) and the stored loan. *)

From Stdlib Require Import DecimalString.

Module TermSheet.
Record t : Type := {
  address : string;
  transactionType : string;
  purchasePrice : number;
  rehabBudget : number;
  arv : number;
  borrowerFico : number;
  borrowerExperience : string;
  maxLoanAmount : number;
  interestRate : number;
  ltv : number;
  downPayment : number;
  closingCosts : number;
  originationFee : number;
  monthlyPayment : number;
  totalProjectCost : number;
  approvalStatus : string;
  borrowerName : option string;
  borrowerEmail : option string
}.
End TermSheet.

(** The object literal of both handlers: the watched values, then the spread
    of [calculatedLoan]; the two share no key. *)
Definition termSheetData (watchedValues : LoanSizerForm) (loan : Loan.t)
    (borrowerEmail : option string) : TermSheet.t :=
  {| TermSheet.address := watchedValues.(address);
     TermSheet.transactionType := watchedValues.(transactionType);
     TermSheet.purchasePrice := watchedValues.(purchasePrice);
     TermSheet.rehabBudget := watchedValues.(rehabBudget);
     TermSheet.arv := watchedValues.(arv);
     TermSheet.borrowerFico := watchedValues.(borrowerFico);
     TermSheet.borrowerExperience := watchedValues.(borrowerExperience);
     TermSheet.maxLoanAmount := loan.(Loan.maxLoanAmount);
     TermSheet.interestRate := loan.(Loan.interestRate);
     TermSheet.ltv := loan.(Loan.ltv);
     TermSheet.downPayment := loan.(Loan.downPayment);
     TermSheet.closingCosts := loan.(Loan.closingCosts);
     TermSheet.originationFee := loan.(Loan.originationFee);
     TermSheet.monthlyPayment := loan.(Loan.monthlyPayment);
     TermSheet.totalProjectCost := loan.(Loan.totalProjectCost);
     TermSheet.approvalStatus := loan.(Loan.approvalStatus);
     TermSheet.borrowerName := None;
     TermSheet.borrowerEmail := borrowerEmail |}.

(** [handleDownloadTermSheet]: the record handed to
    [TermSheetService.downloadPDF], or nothing when no loan is stored. *)
Definition handleDownloadTermSheet (watchedValues : LoanSizerForm) (st : PageState)
    : option TermSheet.t :=
  match st.(calculatedLoan) with
  | Some loan => Some (termSheetData watchedValues loan None)
  | None => None
  end.

(** [handleSignTermSheet]: [answer] is what [prompt] returns ([None] when
    the dialog is cancelled); the result is the record and the address
    handed to [TermSheetService.initiateESignature], or nothing. *)
Definition handleSignTermSheet (watchedValues : LoanSizerForm) (st : PageState)
    (answer : option string) : option (TermSheet.t * string) :=
  match st.(calculatedLoan) with
  | Some loan =>
      match answer with
      | Some email =>
          if String.eqb email "" then None
          else Some (termSheetData watchedValues loan (Some email), email)
      | None => None
      end
  | None => None
  end.

Module TermSheetService.

Import Ascii.

(** The class [[a-zA-Z0-9]] of the regular expression.  A character of the
    model is one UTF-16 code unit (the expression has no [u] flag); the
    model's strings have the code units below 256. *)
Definition alphanumeric (c : Ascii.ascii) : bool :=
  let n := Ascii.N_of_ascii c in
  ((48 <=? n) && (n <=? 57) || (65 <=? n) && (n <=? 90) || (97 <=? n) && (n <=? 122))%N.

(** [s.replace(/[^a-zA-Z0-9]/g, '-')] *)
Fixpoint replace_non_alphanumeric (s : string) : string :=
  match s with
  | EmptyString => EmptyString
  | String c rest =>
      String (if alphanumeric c then c else "-"%char) (replace_non_alphanumeric rest)
  end.

(** The file name of [downloadPDF]; [now] is [Date.now()], a count of
    milliseconds, interpolated as its decimal digits. *)
Definition fileName (termSheetData : TermSheet.t) (now : N) : string :=
  ("term-sheet-" ++ replace_non_alphanumeric termSheetData.(TermSheet.address)
   ++ "-" ++ NilEmpty.string_of_uint (N.to_uint now) ++ ".pdf")%string.

(** A character the replacement leaves as it is: of [[a-zA-Z0-9-]]. *)
Definition keptChar (c : Ascii.ascii) : bool :=
  alphanumeric c || Ascii.eqb c "-".

(** A character of [[a-zA-Z0-9.-]]. *)
Definition fileNameChar (c : Ascii.ascii) : bool :=
  alphanumeric c || Ascii.eqb c "-" || Ascii.eqb c ".".

End TermSheetService.

(** All characters of a string satisfy [p]. *)
Fixpoint string_forall (p : Ascii.ascii -> bool) (s : string) : bool :=
  match s with
  | EmptyString => true
  | String c rest => p c && string_forall p rest
  end.

(** The form passes the schema and [validateInputs]. *)
Definition passes (rules : ValidationRules) (data : LoanSizerForm) : bool :=
  match loanSizerSchema data, validateInputs rules data with
  | [], [] => true
  | _, _ => false
  end.

(** The state after a sequence of submitted forms, oldest first. *)
Definition submitAll (rules : ValidationRules) (forms : list LoanSizerForm)
    (st : PageState) : PageState :=
  fold_left (fun st data => handleSubmit rules data st) forms st.

(** The stored loan, if any, is approved. *)
Definition storedLoanApproved (st : PageState) : Prop :=
  match st.(calculatedLoan) with
  | Some loan => loan.(Loan.approvalStatus) = "Approved"%string
  | None => True
  end.

(** A field's check raises nothing or one issue, on that field. *)
Definition at_most_one_on (p : string) (c : list ZodIssue) : Prop :=
  c = [] \/ exists i, c = [i] /\ i.(path) = p.

(** A form edited after its calculation: the scenario with another ARV. *)
Definition scenarioEdited : LoanSizerForm := {|
  address := "1 Main St";
  transactionType := "Purchase";
  purchasePrice := 200000;
  rehabBudget := 50000;
  arv := 400000;
  borrowerFico := 760;
  borrowerExperience := "Professional"
|}.

(** ** Binary64 rounding, as [SpecFloat] defines it

    The definitions below name the intermediate results of
    [binary_round_aux], the rounding every arithmetic operation ends with. *)

Module Binary64.

Local Open Scope Z_scope.

(** What [k] steps of [shr_1] on [x] leave: the quotient by [2^k], the bit
    below it, and whether anything is left under that bit. *)
Definition shifted (x k : Z) (mrs : shr_record) : Prop :=
  0 <= shr_m mrs
  /\ exists u, 0 <= u < 2 ^ k
       /\ (shr_s mrs = false <-> u = 0)
       /\ 2 * x = 2 * (shr_m mrs * 2 ^ k) + (if shr_r mrs then 2 ^ k else 0) + u.

(** The shift [shr_fexp] applies to a mantissa [m] at exponent [e]. *)
Definition shift_of (m e : Z) : Z := Z.max (fexp prec emax (Zdigits2 m + e) - e) 0.

(** The mantissa after the first shift and the rounding to nearest even. *)
Definition stage1 (x e : Z) : Z :=
  let mrs := fst (shr_fexp prec emax x e loc_Exact) in
  round_nearest_even (shr_m mrs) (loc_of_shr_record mrs).

(** The mantissa and exponent [binary_round_aux] arrives at, before it
    picks zero, a finite number or an infinity. *)
Definition rounded (x e : Z) : Z * Z :=
  let '(mrs', e') := shr_fexp prec emax x e loc_Exact in
  let '(mrs'', e'') :=
    shr_fexp prec emax (round_nearest_even (shr_m mrs') (loc_of_shr_record mrs'))
      e' loc_Exact in
  (shr_m mrs'', e'').

Definition pack (s : bool) (me : Z * Z) : spec_float :=
  match fst me with
  | Z0 => S754_zero s
  | Zpos m => if snd me <=? emax - prec then S754_finite s m (snd me) else S754_infinity s
  | Zneg _ => S754_nan
  end.

(** Order of two results of rounding, as [SFcompare] reads them. *)
Definition rounded_le (a b : Z * Z) : Prop :=
  0 <= fst a /\ 0 <= fst b
  /\ (fst a = 0 \/ (0 < fst b /\ (snd a < snd b \/ (snd a = snd b /\ fst a <= fst b)))).

(** *** Digits and shifts *)

Lemma fexp_eq (e : Z) : fexp prec emax e = Z.max (e - 53) (-1074).
Proof. reflexivity. Qed.

Lemma digits2_pos_bounds (p : positive) :
  2 ^ (Zpos (digits2_pos p) - 1) <= Zpos p < 2 ^ Zpos (digits2_pos p).
Proof.
  induction p as [p IH|p IH|]; cbn [digits2_pos].
  - rewrite Pos2Z.inj_succ.
    replace (Z.succ (Zpos (digits2_pos p)) - 1) with (Z.succ (Zpos (digits2_pos p) - 1)) by lia.
    rewrite !Z.pow_succ_r by lia. lia.
  - rewrite Pos2Z.inj_succ.
    replace (Z.succ (Zpos (digits2_pos p)) - 1) with (Z.succ (Zpos (digits2_pos p) - 1)) by lia.
    rewrite !Z.pow_succ_r by lia. lia.
  - simpl. lia.
Qed.

Lemma Zdigits2_bounds (m : Z) :
  0 < m -> 2 ^ (Zdigits2 m - 1) <= m < 2 ^ Zdigits2 m.
Proof.
  destruct m as [|p|p]; try lia. intros _. apply digits2_pos_bounds.
Qed.

Lemma Zdigits2_nonneg (m : Z) : 0 <= Zdigits2 m.
Proof. destruct m; cbn; lia. Qed.

Lemma Zdigits2_le (x y : Z) : 0 <= x <= y -> Zdigits2 x <= Zdigits2 y.
Proof.
  intros [Hx Hxy]. destruct x as [|p|p]; [apply Zdigits2_nonneg| |lia].
  destruct y as [|q|q]; try lia. cbn [Zdigits2].
  pose proof (digits2_pos_bounds p) as [Lp _].
  pose proof (digits2_pos_bounds q) as [_ Uq].
  assert (L : 2 ^ (Zpos (digits2_pos p) - 1) < 2 ^ Zpos (digits2_pos q)) by lia.
  apply Z.pow_lt_mono_r_iff in L; lia.
Qed.

Lemma shift_of_mono (x y e : Z) : 0 <= x <= y -> shift_of x e <= shift_of y e.
Proof.
  intros H. unfold shift_of. rewrite !fexp_eq.
  pose proof (Zdigits2_le x y H). lia.
Qed.

Lemma iter_pos_swap {A} (f : A -> A) (p : positive) (x : A) :
  SpecFloat.iter_pos f p (f x) = f (SpecFloat.iter_pos f p x).
Proof.
  revert x. induction p as [p IH|p IH|]; intros x; cbn [SpecFloat.iter_pos].
  - rewrite !IH. reflexivity.
  - rewrite !IH. reflexivity.
  - reflexivity.
Qed.

Lemma iter_pos_succ {A} (f : A -> A) (p : positive) (x : A) :
  SpecFloat.iter_pos f (Pos.succ p) x = f (SpecFloat.iter_pos f p x).
Proof.
  revert x. induction p as [p IH|p IH|]; intros x; cbn [SpecFloat.iter_pos Pos.succ].
  - rewrite !IH. rewrite !iter_pos_swap. reflexivity.
  - rewrite !iter_pos_swap. reflexivity.
  - reflexivity.
Qed.

Lemma shr_1_nonneg (m : Z) (r s : bool) :
  0 <= m ->
  shr_1 (Build_shr_record m r s) = Build_shr_record (Z.div2 m) (Z.odd m) (r || s).
Proof.
  intros H. destruct m as [|p|p]; [reflexivity| |lia].
  destruct p; reflexivity.
Qed.

Lemma shifted_0 (x : Z) : 0 <= x -> shifted x 0 (Build_shr_record x false false).
Proof.
  intros H. split; [exact H|]. exists 0. cbn [shr_m shr_r shr_s]. rewrite Z.pow_0_r.
  split; [lia|]. split; [tauto|lia].
Qed.

Lemma shifted_step (x k : Z) (mrs : shr_record) :
  0 <= k -> shifted x k mrs -> shifted x (k + 1) (shr_1 mrs).
Proof.
  intros Hk [Hm (u & Hu & Hs & Hx)].
  destruct mrs as [m r s]; cbn [shr_m shr_r shr_s] in *.
  rewrite shr_1_nonneg by exact Hm. cbn [shr_m shr_r shr_s].
  pose proof (Z.div2_odd m) as D.
  assert (P : 2 ^ (k + 1) = 2 * 2 ^ k) by (rewrite Z.pow_add_r by lia; lia).
  assert (K : 0 < 2 ^ k) by (apply Z.pow_pos_nonneg; lia).
  split.
  { rewrite Z.div2_div. apply Z.div_pos; lia. }
  exists ((if r then 2 ^ k else 0) + u).
  rewrite P.
  set (q := Z.div2 m) in *. set (K2 := 2 ^ k) in *.
  assert (E : m * K2 = 2 * (q * K2) + (if Z.odd m then K2 else 0)).
  { rewrite D at 1. destruct (Z.odd m); cbn [Z.b2z]; lia. }
  clear D. revert E. destruct (Z.odd m); intros E; destruct r;
    cbn [orb shr_m shr_r shr_s].
  all: split; [lia|]; split; [|lia].
  all: split; intros H; try discriminate H; try lia.
  all: try (apply Hs in H; lia); try (apply Hs; lia).
Qed.

Lemma shifted_iter (x : Z) (p : positive) :
  0 <= x ->
  shifted x (Zpos p) (SpecFloat.iter_pos shr_1 p (Build_shr_record x false false)).
Proof.
  intros Hx. induction p as [|p IH] using Pos.peano_ind.
  - apply (shifted_step x 0); [lia|]. apply shifted_0, Hx.
  - rewrite iter_pos_succ, Pos2Z.inj_succ. apply shifted_step; [lia|exact IH].
Qed.

Lemma shr_fexp_shifted (m e : Z) :
  0 <= m ->
  shifted m (shift_of m e) (fst (shr_fexp prec emax m e loc_Exact))
  /\ snd (shr_fexp prec emax m e loc_Exact) = e + shift_of m e.
Proof.
  intros Hm. unfold shr_fexp, shift_of, shr. cbn [shr_record_of_loc].
  destruct (fexp prec emax (Zdigits2 m + e) - e) as [|p|p]; cbn [fst snd].
  - split; [apply shifted_0, Hm|lia].
  - replace (Z.max (Zpos p) 0) with (Zpos p) by lia.
    split; [apply shifted_iter, Hm|reflexivity].
  - replace (Z.max (Zneg p) 0) with 0 by lia.
    split; [apply shifted_0, Hm|lia].
Qed.

(** *** Rounding to nearest even is monotone *)

Lemma round_nearest_even_range (mrs : shr_record) :
  shr_m mrs <= round_nearest_even (shr_m mrs) (loc_of_shr_record mrs) <= shr_m mrs + 1.
Proof.
  destruct mrs as [m r s]. destruct r, s; cbn; try destruct (Z.even m); lia.
Qed.

Lemma round_nearest_even_shifted_mono (x y k : Z) (a b : shr_record) :
  0 <= k -> x <= y -> shifted x k a -> shifted y k b ->
  round_nearest_even (shr_m a) (loc_of_shr_record a)
  <= round_nearest_even (shr_m b) (loc_of_shr_record b).
Proof.
  intros Hk Hxy [Ha (u & Hu & Hsa & Hx)] [Hb (v & Hv & Hsb & Hy)].
  assert (K : 0 < 2 ^ k) by (apply Z.pow_pos_nonneg; lia).
  destruct a as [m r s], b as [m' r' s']; cbn [shr_m shr_r shr_s] in *.
  set (K2 := 2 ^ k) in *.
  assert (C : m < m' \/ m = m' \/ m' < m) by lia.
  destruct C as [C|[C|C]].
  - assert (m * K2 + K2 <= m' * K2) by nia.
    pose proof (round_nearest_even_range (Build_shr_record m r s)) as Ra.
    pose proof (round_nearest_even_range (Build_shr_record m' r' s')) as Rb.
    cbn [shr_m] in Ra, Rb. lia.
  - subst m'.
    destruct r, s, r', s'; cbn; try destruct (Z.even m); try lia;
      exfalso;
      repeat match goal with
             | H : _ <-> _ |- _ => destruct H
             end;
      try (assert (u = 0) by auto); try (assert (v = 0) by auto); try lia.
  - exfalso. assert (m' * K2 + K2 <= m * K2) by nia.
    destruct r, r'; lia.
Qed.

(** *** The two stages of [binary_round_aux] *)

Lemma binary_round_aux_pack (s : bool) (x e : Z) :
  binary_round_aux prec emax s x e loc_Exact = pack s (rounded x e).
Proof.
  unfold binary_round_aux, rounded, pack.
  destruct (shr_fexp prec emax x e loc_Exact) as [mrs' e'].
  destruct (shr_fexp prec emax _ e' loc_Exact) as [mrs'' e''].
  reflexivity.
Qed.

(** First stage: the rounded mantissa fits in 53 bits or is [2^53]. *)
Lemma stage1_range (x e : Z) :
  0 < x -> 0 <= stage1 x e <= 2 ^ 53.
Proof.
  intros Hx. unfold stage1.
  destruct (shr_fexp_shifted x e) as [[Hm (u & Hu & _ & E)] _]; [lia|].
  pose proof (round_nearest_even_range (fst (shr_fexp prec emax x e loc_Exact))) as R.
  set (mrs := fst (shr_fexp prec emax x e loc_Exact)) in *.
  split; [lia|].
  enough (shr_m mrs < 2 ^ 53) by lia.
  pose proof (Zdigits2_bounds x Hx) as [_ D].
  pose proof (Zdigits2_nonneg x) as D0.
  assert (K : 0 < 2 ^ shift_of x e) by (apply Z.pow_pos_nonneg; unfold shift_of; lia).
  assert (L : 2 ^ Zdigits2 x <= 2 ^ 53 * 2 ^ shift_of x e).
  { rewrite <- Z.pow_add_r by (unfold shift_of; lia).
    apply Z.pow_le_mono_r; [lia|]. unfold shift_of. rewrite fexp_eq. lia. }
  assert (shr_m mrs * 2 ^ shift_of x e <= x) by (destruct (shr_r mrs); lia).
  nia.
Qed.

(** A shift that brings the mantissa down to 53 bits leaves at least
    [2^52]. *)
Lemma stage1_normal (x e : Z) :
  0 < x -> 0 < shift_of x e -> shift_of x e = Zdigits2 x - 53 ->
  2 ^ 52 <= stage1 x e.
Proof.
  intros Hx Hk Hn. unfold stage1.
  destruct (shr_fexp_shifted x e) as [[Hm (u & Hu & _ & E)] _]; [lia|].
  pose proof (round_nearest_even_range (fst (shr_fexp prec emax x e loc_Exact))) as R.
  set (mrs := fst (shr_fexp prec emax x e loc_Exact)) in *.
  enough (2 ^ 52 <= shr_m mrs) by lia.
  pose proof (Zdigits2_bounds x Hx) as [D _].
  assert (K : 0 < 2 ^ shift_of x e) by (apply Z.pow_pos_nonneg; lia).
  assert (L : 2 ^ (Zdigits2 x - 1) = 2 ^ 52 * 2 ^ shift_of x e).
  { rewrite <- Z.pow_add_r by lia. f_equal. lia. }
  assert (x < (shr_m mrs + 1) * 2 ^ shift_of x e) by (destruct (shr_r mrs); lia).
  nia.
Qed.

Lemma stage1_exponent (x e : Z) :
  -1074 <= e + shift_of x e.
Proof. unfold shift_of. rewrite fexp_eq. lia. Qed.

(** Second stage: only [2^53] is shifted again, by one bit. *)
Lemma stage2 (m e : Z) :
  0 <= m <= 2 ^ 53 -> -1074 <= e ->
  (m < 2 ^ 53 /\ shr_fexp prec emax m e loc_Exact = (Build_shr_record m false false, e))
  \/ (m = 2 ^ 53 /\ shr_fexp prec emax m e loc_Exact = (Build_shr_record (2 ^ 52) false false, e + 1)).
Proof.
  intros Hm He.
  assert (C : m < 2 ^ 53 \/ m = 2 ^ 53) by lia. destruct C as [C|C]; [left|right]; split; auto.
  - unfold shr_fexp, shr. cbn [shr_record_of_loc].
    assert (D : Zdigits2 m <= 53).
    { destruct (Z.eq_dec m 0) as [->|N]; [cbn; lia|].
      pose proof (Zdigits2_bounds m ltac:(lia)) as [D _].
      assert (L : 2 ^ (Zdigits2 m - 1) < 2 ^ 53) by lia.
      apply Z.pow_lt_mono_r_iff in L; lia. }
    rewrite fexp_eq.
    destruct (Z.max (Zdigits2 m + e - 53) (-1074) - e) as [|p|p] eqn:N; try reflexivity. lia.
  - subst m. unfold shr_fexp, shr. cbn [shr_record_of_loc].
    replace (Zdigits2 (2 ^ 53)) with 54 by reflexivity.
    rewrite fexp_eq.
    replace (Z.max (54 + e - 53) (-1074) - e) with 1 by lia.
    reflexivity.
Qed.

Lemma rounded_stage (x e : Z) :
  0 < x ->
  let m1 := stage1 x e in
  let e1 := e + shift_of x e in
  (m1 < 2 ^ 53 /\ rounded x e = (m1, e1))
  \/ (m1 = 2 ^ 53 /\ rounded x e = (2 ^ 52, e1 + 1)).
Proof.
  intros Hx m1 e1. unfold rounded.
  destruct (shr_fexp_shifted x e) as [_ E1]; [lia|].
  pose proof (stage1_range x e Hx) as R. pose proof (stage1_exponent x e) as X.
  fold m1 in R. fold e1 in X, E1.
  unfold stage1 in m1.
  destruct (shr_fexp prec emax x e loc_Exact) as [mrs' e'].
  cbn [fst snd] in *. subst e'.
  destruct (stage2 m1 e1 R X) as [[L S]|[L S]]; fold m1; rewrite S; cbn [shr_m]; auto.
Qed.

(** *** Rounding is monotone *)

Lemma rounded_mono (x y e : Z) :
  0 < x <= y -> rounded_le (rounded x e) (rounded y e).
Proof.
  intros [Hx Hxy]. assert (Hy : 0 < y) by lia.
  pose proof (stage1_range x e Hx) as Rx. pose proof (stage1_range y e Hy) as Ry.
  pose proof (shift_of_mono x y e ltac:(lia)) as K.
  assert (P52 : 0 < 2 ^ 52 < 2 ^ 53) by (split; reflexivity).
  destruct (Z.eq_dec (shift_of x e) (shift_of y e)) as [Q|Q].
  - assert (M : stage1 x e <= stage1 y e).
    { unfold stage1.
      destruct (shr_fexp_shifted x e) as [Sx _]; [lia|].
      destruct (shr_fexp_shifted y e) as [Sy _]; [lia|].
      rewrite Q in Sx.
      apply (round_nearest_even_shifted_mono x y (shift_of y e)); auto.
      unfold shift_of; lia. }
    destruct (rounded_stage x e Hx) as [[Lx ->]|[Lx ->]];
      destruct (rounded_stage y e Hy) as [[Ly ->]|[Ly ->]];
      unfold rounded_le; cbn [fst snd]; lia.
  - assert (N : 0 < shift_of y e /\ shift_of y e = Zdigits2 y - 53).
    { revert K Q. unfold shift_of. rewrite !fexp_eq. lia. }
    pose proof (stage1_normal y e Hy (proj1 N) (proj2 N)) as B.
    destruct (rounded_stage x e Hx) as [[Lx ->]|[Lx ->]];
      destruct (rounded_stage y e Hy) as [[Ly ->]|[Ly ->]];
      unfold rounded_le; cbn [fst snd]; lia.
Qed.

Lemma pack_le (a b : Z * Z) :
  rounded_le a b -> SFleb (pack false a) (pack false b) = true.
Proof.
  destruct a as [m e], b as [m' e']. unfold rounded_le, pack, SFleb. cbn [fst snd].
  intros (Ha & Hb & H).
  destruct m as [|p|p]; [| |lia].
  - destruct m' as [|q|q]; [reflexivity| |lia].
    destruct (e' <=? emax - prec); reflexivity.
  - destruct H as [H|(H0 & H)]; [lia|].
    destruct m' as [|q|q]; try lia.
    destruct (Z.leb_spec e (emax - prec)), (Z.leb_spec e' (emax - prec));
      cbn [SFcompare]; try reflexivity.
    + destruct (Z.compare_spec e e') as [E|E|E]; try reflexivity; try lia.
      destruct H as [H|[_ H]]; [lia|].
      change (Pos.compare_cont Eq p q) with (Pos.compare p q).
      destruct (Pos.compare_spec p q) as [C|C|C]; try reflexivity. lia.
    + lia.
Qed.

(** Rounding a positive mantissa at a given exponent to binary64 is
    monotone in the mantissa. *)
Lemma binary_round_aux_mono (x y : positive) (e : Z) :
  (x <= y)%positive ->
  SFleb (binary_round_aux prec emax false (Zpos x) e loc_Exact)
        (binary_round_aux prec emax false (Zpos y) e loc_Exact) = true.
Proof.
  intros H. rewrite !binary_round_aux_pack. apply pack_le, rounded_mono. lia.
Qed.

(** A positive mantissa at an exponent of at least [-1074] does not round
    to zero. *)
Lemma rounded_pos (x e : Z) :
  0 < x -> -1074 <= e -> 0 < fst (rounded x e).
Proof.
  intros Hx He.
  destruct (rounded_stage x e Hx) as [[L ->]|[L ->]]; cbn [fst]; [|reflexivity].
  destruct (Z.eq_dec (shift_of x e) 0) as [Q|Q].
  - unfold stage1.
    destruct (shr_fexp_shifted x e) as [[Hm (u & Hu & _ & E)] _]; [lia|].
    pose proof (round_nearest_even_range (fst (shr_fexp prec emax x e loc_Exact))) as R.
    rewrite Q, Z.pow_0_r in *.
    destruct (shr_r (fst (shr_fexp prec emax x e loc_Exact))); lia.
  - assert (N : 0 < shift_of x e /\ shift_of x e = Zdigits2 x - 53).
    { revert Q. unfold shift_of. rewrite !fexp_eq. lia. }
    pose proof (stage1_normal x e Hx (proj1 N) (proj2 N)). lia.
Qed.

(** *** Valid numbers and their order *)

(** Valid finite numbers: the exponent is at least [-1074], the mantissa has
    at most 53 bits, and exactly 53 above the least exponent. *)
Lemma bounded_canonical (m : positive) (e : Z) :
  bounded prec emax m e = true ->
  -1074 <= e /\ Zpos m < 2 ^ 53 /\ (e = -1074 \/ 2 ^ 52 <= Zpos m).
Proof.
  unfold bounded, canonical_mantissa. rewrite fexp_eq.
  intros H. apply andb_prop in H as [H _]. apply Z.eqb_eq in H.
  pose proof (digits2_pos_bounds m) as [L U].
  assert (D : Zpos (digits2_pos m) <= 53) by lia.
  split; [lia|]. split.
  - assert (2 ^ Zpos (digits2_pos m) <= 2 ^ 53) by (apply Z.pow_le_mono_r; lia). lia.
  - destruct (Z.eq_dec e (-1074)) as [Q|Q]; [left; exact Q|right].
    replace (Zpos (digits2_pos m)) with 53 in L by lia. exact L.
Qed.

Lemma iter_xO (m d : positive) :
  Zpos (Pos.iter xO m d) = Zpos m * 2 ^ Zpos d.
Proof.
  induction d as [|d IH] using Pos.peano_ind.
  - rewrite Z.pow_1_r. cbn [Pos.iter]. lia.
  - rewrite Pos.iter_succ, Pos2Z.inj_succ, Z.pow_succ_r by lia.
    rewrite Pos2Z.inj_xO, IH. lia.
Qed.

Lemma shl_align_fst (m : positive) (e ez : Z) :
  ez <= e -> Zpos (fst (shl_align m e ez)) = Zpos m * 2 ^ (e - ez).
Proof.
  intros H. unfold shl_align.
  destruct (ez - e) as [|d|d] eqn:Q; cbn [fst].
  - replace (e - ez) with 0 by lia. lia.
  - lia.
  - rewrite iter_xO. f_equal. f_equal. lia.
Qed.

Lemma shl_align_snd (m : positive) (e ez : Z) :
  snd (shl_align m e ez) = Z.min e ez.
Proof.
  unfold shl_align. destruct (ez - e) as [|d|d] eqn:Q; cbn [snd]; lia.
Qed.

(** [SFcompare] on valid finite numbers is the order of their values. *)
Lemma SFcompare_Lt_scaled (s1 s2 : bool) (m1 m2 : positive) (e1 e2 : Z) :
  bounded prec emax m1 e1 = true -> bounded prec emax m2 e2 = true ->
  SFcompare (S754_finite s1 m1 e1) (S754_finite s2 m2 e2) = Some Lt ->
  cond_Zopp s1 (Zpos m1 * 2 ^ (e1 - Z.min e1 e2))
  < cond_Zopp s2 (Zpos m2 * 2 ^ (e2 - Z.min e1 e2)).
Proof.
  intros B1 B2.
  apply bounded_canonical in B1 as (E1 & U1 & N1).
  apply bounded_canonical in B2 as (E2 & U2 & N2).
  assert (P1 : 0 < 2 ^ (e1 - Z.min e1 e2)) by (apply Z.pow_pos_nonneg; lia).
  assert (P2 : 0 < 2 ^ (e2 - Z.min e1 e2)) by (apply Z.pow_pos_nonneg; lia).
  assert (G : forall a b, a < b -> 2 <= 2 ^ (b - a)).
  { intros a b L. change 2 with (2 ^ 1) at 1. apply Z.pow_le_mono_r; lia. }
  cbn [SFcompare]. destruct s1, s2; cbn [cond_Zopp]; intros H; try nia.
  - destruct (Z.compare_spec e1 e2) as [Q|Q|Q]; try discriminate.
    + subst e2. rewrite Z.min_id, Z.sub_diag, Z.pow_0_r in *.
      change (Pos.compare_cont Eq m1 m2) with (Pos.compare m1 m2) in H.
      destruct (Pos.compare_spec m1 m2) as [C|C|C]; try discriminate. lia.
    + replace (Z.min e1 e2) with e2 in * by lia.
      rewrite Z.sub_diag, Z.pow_0_r. specialize (G e2 e1 Q). nia.
  - discriminate.
  - destruct (Z.compare_spec e1 e2) as [Q|Q|Q]; try discriminate.
    + subst e2. rewrite Z.min_id, Z.sub_diag, Z.pow_0_r in *.
      change (Pos.compare_cont Eq m1 m2) with (Pos.compare m1 m2) in H.
      destruct (Pos.compare_spec m1 m2) as [C|C|C]; try discriminate. lia.
    + replace (Z.min e1 e2) with e1 in * by lia.
      rewrite Z.sub_diag, Z.pow_0_r. specialize (G e1 e2 Q). nia.
Qed.

(** Normalising a negative integer at an exponent of at least [-1074] gives
    a number below zero. *)
Lemma binary_normalize_neg (p : positive) (e : Z) :
  -1074 <= e ->
  SFltb (binary_normalize prec emax (Zneg p) e false) (S754_zero false) = true.
Proof.
  intros He. unfold binary_normalize, binary_round.
  pose proof (shl_align_snd p e (fexp prec emax (Zpos (digits2_pos p) + e))) as S.
  destruct (shl_align p e (fexp prec emax (Zpos (digits2_pos p) + e))) as [mz ez].
  cbn [snd] in S. rewrite fexp_eq in S.
  rewrite binary_round_aux_pack.
  pose proof (rounded_pos (Zpos mz) ez ltac:(lia) ltac:(lia)) as R.
  unfold pack. destruct (fst (rounded (Zpos mz) ez)) as [|q|q]; try lia.
  destruct (snd (rounded (Zpos mz) ez) <=? emax - prec); reflexivity.
Qed.

Lemma SFcompare_refl (x : spec_float) :
  x <> S754_nan -> SFcompare x x = Some Eq.
Proof.
  destruct x as [s|s| |s m e]; intros H; cbn [SFcompare]; try congruence.
  - destruct s; reflexivity.
  - destruct s; rewrite Z.compare_refl, Pos.compare_cont_refl; reflexivity.
Qed.

Lemma SFcompare_antisym (x y : spec_float) :
  SFcompare y x = option_map CompOpp (SFcompare x y).
Proof.
  destruct x as [s|s| |s m e], y as [s'|s'| |s' m' e']; cbn [SFcompare option_map];
    try reflexivity; try (destruct s; reflexivity); try (destruct s'; reflexivity);
    try (destruct s, s'; reflexivity).
  destruct s, s'; try reflexivity; f_equal.
  - rewrite (Z.compare_antisym e e').
    destruct (e ?= e'); cbn [CompOpp]; try reflexivity.
    rewrite (Pos.compare_cont_antisym m m' Eq). reflexivity.
  - rewrite (Z.compare_antisym e e').
    destruct (e ?= e'); cbn [CompOpp]; try reflexivity.
    rewrite (Pos.compare_cont_antisym m m' Eq). reflexivity.
Qed.

(** The half-up rounding of [Math.round] is within one half of the value:
    with [K = 2^(-e)], [n - 1/2 <= v / K < n + 1/2]. *)
Lemma round_half_up_nearest (s : bool) (m : positive) (e : Z) :
  e < 0 ->
  let n := round_half_up s m e in
  (2 * n - 1) * 2 ^ (- e) <= 2 * cond_Zopp s (Zpos m) < (2 * n + 1) * 2 ^ (- e).
Proof.
  intros He n. subst n. unfold round_half_up.
  set (v := cond_Zopp s (Zpos m)).
  assert (K : 2 ^ (- e) = 2 * 2 ^ (- e - 1)).
  { replace (- e) with (Z.succ (- e - 1)) at 1 by lia. apply Z.pow_succ_r. lia. }
  assert (H : 0 < 2 ^ (- e - 1)) by (apply Z.pow_pos_nonneg; lia).
  pose proof (Z.div_mod (v + 2 ^ (- e - 1)) (2 ^ (- e)) ltac:(lia)) as D.
  pose proof (Z.mod_pos_bound (v + 2 ^ (- e - 1)) (2 ^ (- e)) ltac:(lia)) as B.
  set (q := (v + 2 ^ (- e - 1)) / 2 ^ (- e)) in *.
  nia.
Qed.

(** *** The same value at another exponent *)

Lemma shr_fexp_double (y e : Z) :
  0 < y -> e + 1 <= fexp prec emax (Zdigits2 y + e + 1) ->
  shr_fexp prec emax (2 * y) e loc_Exact = shr_fexp prec emax y (e + 1) loc_Exact.
Proof.
  intros Hy H. destruct y as [|p|p]; try lia.
  unfold shr_fexp. cbn [shr_record_of_loc].
  change (2 * Zpos p) with (Zpos p~0).
  replace (Zdigits2 (Zpos p~0) + e) with (Zdigits2 (Zpos p) + (e + 1))
    by (cbn [Zdigits2 digits2_pos]; lia).
  replace (Zdigits2 (Zpos p) + e + 1) with (Zdigits2 (Zpos p) + (e + 1)) in H by lia.
  set (F := fexp prec emax (Zdigits2 (Zpos p) + (e + 1))) in *.
  unfold shr.
  destruct (F - e) as [|n|n] eqn:N; try lia.
  destruct (F - (e + 1)) as [|n'|n'] eqn:N'; try lia.
  - assert (n = 1%positive) by lia. subst n. cbn [SpecFloat.iter_pos shr_1].
    f_equal; lia.
  - assert (n = Pos.succ n') by lia. subst n.
    rewrite iter_pos_succ, <- iter_pos_swap. cbn [shr_1]. f_equal; lia.
Qed.

Lemma rounded_double (y e : Z) :
  0 < y -> e + 1 <= fexp prec emax (Zdigits2 y + e + 1) ->
  rounded (2 * y) e = rounded y (e + 1).
Proof.
  intros Hy H. unfold rounded. rewrite (shr_fexp_double y e Hy H). reflexivity.
Qed.

Lemma Zdigits2_double (y : Z) : 0 < y -> Zdigits2 (2 * y) = Zdigits2 y + 1.
Proof.
  destruct y as [|p|p]; try lia. intros _.
  change (2 * Zpos p) with (Zpos p~0). cbn [Zdigits2 digits2_pos]. lia.
Qed.

(** A mantissa with [k] more low zero bits at an exponent [k] lower rounds
    to the same result, when no bit of it lies under the target exponent. *)
Lemma rounded_scaled (k : nat) (y e : Z) :
  0 < y -> e + Z.of_nat k <= fexp prec emax (Zdigits2 y + e + Z.of_nat k) ->
  rounded (y * 2 ^ Z.of_nat k) e = rounded y (e + Z.of_nat k).
Proof.
  revert y e. induction k as [|k IH]; intros y e Hy H.
  - cbn [Z.of_nat]. rewrite Z.pow_0_r, Z.mul_1_r, Z.add_0_r. reflexivity.
  - rewrite Nat2Z.inj_succ in *. rewrite Z.pow_succ_r by lia.
    replace (y * (2 * 2 ^ Z.of_nat k)) with (2 * y * 2 ^ Z.of_nat k) by lia.
    rewrite IH.
    + rewrite rounded_double; [f_equal; lia|lia|].
      replace (Zdigits2 y + (e + Z.of_nat k) + 1) with (Zdigits2 y + e + Z.succ (Z.of_nat k)) by lia.
      lia.
    + lia.
    + rewrite Zdigits2_double by lia.
      replace (Zdigits2 y + 1 + e + Z.of_nat k) with (Zdigits2 y + e + Z.succ (Z.of_nat k)) by lia.
      revert H. rewrite !fexp_eq. lia.
Qed.

(** Monotonicity across exponents: [x * 2^e <= y * 2^(e + k)] for a [y] of
    at least 53 bits. *)
Lemma binary_round_aux_mono_scaled (x y : positive) (e : Z) (k : nat) :
  2 ^ 52 <= Zpos y -> Zpos x <= Zpos y * 2 ^ Z.of_nat k ->
  SFleb (binary_round_aux prec emax false (Zpos x) e loc_Exact)
        (binary_round_aux prec emax false (Zpos y) (e + Z.of_nat k) loc_Exact) = true.
Proof.
  intros Hy H. rewrite !binary_round_aux_pack.
  rewrite <- rounded_scaled.
  - apply pack_le, rounded_mono. lia.
  - lia.
  - pose proof (Zdigits2_bounds (Zpos y) ltac:(lia)) as [_ U].
    assert (L : 2 ^ 52 < 2 ^ Zdigits2 (Zpos y)) by lia.
    apply Z.pow_lt_mono_r_iff in L; [|lia|apply Zdigits2_nonneg].
    rewrite fexp_eq. lia.
Qed.

(** A valid mantissa and exponent round to themselves. *)
Lemma rounded_canonical (m : positive) (e : Z) :
  bounded prec emax m e = true -> rounded (Zpos m) e = (Zpos m, e).
Proof.
  unfold bounded, canonical_mantissa. intros H.
  apply andb_prop in H as [H _]. apply Z.eqb_eq in H.
  assert (S : shr_fexp prec emax (Zpos m) e loc_Exact
              = (Build_shr_record (Zpos m) false false, e)).
  { unfold shr_fexp. cbn [shr_record_of_loc Zdigits2]. rewrite H, Z.sub_diag. reflexivity. }
  unfold rounded. rewrite S. cbn [shr_m loc_of_shr_record round_nearest_even].
  rewrite S. reflexivity.
Qed.

Lemma rounded_nonneg (x e : Z) : 0 < x -> 0 <= fst (rounded x e).
Proof.
  intros H. destruct (rounded_mono x x e ltac:(lia)) as (N & _). exact N.
Qed.

(** [SFleb] on valid numbers above zero, read on mantissas and exponents. *)
Lemma SFleb_scaled (m1 m2 : positive) (e1 e2 : Z) :
  bounded prec emax m1 e1 = true -> bounded prec emax m2 e2 = true ->
  SFleb (S754_finite false m1 e1) (S754_finite false m2 e2) = true ->
  e1 <= e2 /\ Zpos m1 <= Zpos m2 * 2 ^ (e2 - e1).
Proof.
  intros B1 B2.
  apply bounded_canonical in B1 as (E1 & U1 & N1).
  apply bounded_canonical in B2 as (E2 & U2 & N2).
  unfold SFleb. cbn [SFcompare].
  destruct (Z.compare_spec e1 e2) as [Q|Q|Q]; try discriminate.
  - subst e2. rewrite Z.sub_diag, Z.pow_0_r.
    change (Pos.compare_cont Eq m1 m2) with (Pos.compare m1 m2).
    destruct (Pos.compare_spec m1 m2) as [C|C|C]; try discriminate; intros _; lia.
  - intros _. split; [lia|].
    assert (G : 2 ^ 1 <= 2 ^ (e2 - e1)) by (apply Z.pow_le_mono_r; lia).
    rewrite Z.pow_1_r in G. nia.
Qed.

(** [SFleb] is transitive. *)
Ltac order_cases :=
  repeat match goal with
         | |- context [Z.compare ?a ?b] => destruct (Z.compare_spec a b)
         | |- context [Pos.compare_cont Eq ?a ?b] =>
             change (Pos.compare_cont Eq a b) with (Pos.compare a b);
             destruct (Pos.compare_spec a b)
         | H : context [Z.compare ?a ?b] |- _ => destruct (Z.compare_spec a b)
         | H : context [Pos.compare_cont Eq ?a ?b] |- _ =>
             change (Pos.compare_cont Eq a b) with (Pos.compare a b) in H;
             destruct (Pos.compare_spec a b)
         end.

Lemma SFleb_trans (x y z : spec_float) :
  SFleb x y = true -> SFleb y z = true -> SFleb x z = true.
Proof.
  unfold SFleb.
  destruct x as [sx|sx| |sx mx ex], y as [sy|sy| |sy my ey], z as [sz|sz| |sz mz ez];
    cbn [SFcompare]; try discriminate; try reflexivity;
    try (destruct sx; try discriminate; try reflexivity);
    try (destruct sy; try discriminate; try reflexivity);
    try (destruct sz; try discriminate; try reflexivity).
  all: intros H1 H2; order_cases; cbn [CompOpp] in *;
    try reflexivity; try discriminate; try lia.
Qed.

Lemma SFmul_comm (x y : spec_float) : SFmul prec emax x y = SFmul prec emax y x.
Proof.
  destruct x as [sx|sx| |sx mx ex], y as [sy|sy| |sy my ey]; cbn [SFmul];
    try reflexivity; try (rewrite (xorb_comm sx sy); reflexivity).
  rewrite (xorb_comm sx sy), (Pos.mul_comm mx my), (Z.add_comm ex ey). reflexivity.
Qed.

End Binary64.

(** ** Facts about numbers

    Through the specification of the primitive operations ([mul_spec],
    [sub_spec], [leb_spec], ...), the facts above become facts about
    JavaScript numbers. *)

Lemma Prim2SF_zero : Prim2SF 0 = S754_zero false.
Proof. vm_compute. reflexivity. Qed.

Lemma Prim2SF_1000 : Prim2SF 1000 = S754_finite false 8796093022208000 (-43).
Proof. vm_compute. reflexivity. Qed.

Lemma is_nan_spec (x : number) :
  is_nan x = match Prim2SF x with S754_nan => true | _ => false end.
Proof.
  unfold is_nan. rewrite FloatAxioms.eqb_spec. unfold SFeqb.
  destruct (Prim2SF x) as [s|s| |s m e] eqn:E; try reflexivity;
    rewrite Binary64.SFcompare_refl by discriminate; reflexivity.
Qed.

(** A number at least zero times a positive factor is at most the larger
    factor of the same binade times the number. *)
Lemma mul_le_mul (a c d : number) (mc md : positive) (e : Z) :
  (a >=? 0) = true ->
  Prim2SF c = S754_finite false mc e ->
  Prim2SF d = S754_finite false md e ->
  (mc <= md)%positive ->
  (a * c <=? d * a) = true.
Proof.
  intros Ha Hc Hd Hm. revert Ha. unfold JS.ge.
  rewrite !leb_spec, !mul_spec, Hc, Hd, Prim2SF_zero.
  destruct (Prim2SF a) as [s|s| |s m ea]; unfold SFleb; cbn [SFcompare];
    try discriminate.
  - intros _. destruct s; reflexivity.
  - destruct s; [discriminate|reflexivity].
  - destruct s; [discriminate|]. intros _.
    unfold SF64mul, SFmul. cbn [xorb].
    rewrite (Pos.mul_comm md m), (Z.add_comm e ea).
    apply Binary64.binary_round_aux_mono. nia.
Qed.

(** When [x < y], the difference [x - y] is below zero: the difference of
    two distinct numbers does not round to zero. *)
Lemma sub_neg (x y : number) : (x <? y) = true -> (x - y <? 0) = true.
Proof.
  rewrite !ltb_spec, sub_spec, Prim2SF_zero.
  pose proof (Prim2SF_valid x) as Vx. pose proof (Prim2SF_valid y) as Vy.
  destruct (Prim2SF x) as [sx|sx| |sx mx ex], (Prim2SF y) as [sy|sy| |sy my ey];
    unfold SFltb, SF64sub.
  16: { cbn [valid_binary SpecFloat.valid_binary] in Vx, Vy.
        destruct (SFcompare (S754_finite sx mx ex) (S754_finite sy my ey))
          as [[| |]|] eqn:C; try discriminate.
        intros _. apply Binary64.SFcompare_Lt_scaled in C; auto.
        pose proof (Binary64.bounded_canonical _ _ Vx) as (Ex & _).
        pose proof (Binary64.bounded_canonical _ _ Vy) as (Ey & _).
        cbn [SFsub]. fold (SFltb (binary_normalize prec emax
          (cond_Zopp sx (Zpos (fst (shl_align mx ex (Z.min ex ey)))) -
           cond_Zopp sy (Zpos (fst (shl_align my ey (Z.min ex ey)))))
          (Z.min ex ey) false) (S754_zero false)).
        rewrite !Binary64.shl_align_fst by lia.
        destruct (cond_Zopp sx (Zpos mx * 2 ^ (ex - Z.min ex ey)) -
                  cond_Zopp sy (Zpos my * 2 ^ (ey - Z.min ex ey)))%Z as [|p|p] eqn:Q;
          try lia.
        apply Binary64.binary_normalize_neg. lia. }
  all: cbn [SFcompare SFsub]; try discriminate.
  all: try (destruct sx; try discriminate; try reflexivity).
  all: try (destruct sy; try discriminate; try reflexivity).
Qed.

(** Of two numbers, neither NaN, one is below the other or the other is at
    most the one. *)
Lemma leb_of_not_ltb (x y : number) :
  is_nan x = false -> is_nan y = false -> (x <? y) = false -> (y <=? x) = true.
Proof.
  rewrite !is_nan_spec, ltb_spec, leb_spec. unfold SFltb, SFleb.
  rewrite (Binary64.SFcompare_antisym (Prim2SF x) (Prim2SF y)).
  destruct (Prim2SF x) as [sx|sx| |sx mx ex], (Prim2SF y) as [sy|sy| |sy my ey];
    try discriminate; intros _ _.
  all: destruct (SFcompare _ _) as [[| |]|] eqn:C; cbn [option_map CompOpp];
    try reflexivity; try discriminate.
  all: cbn [SFcompare] in C; try discriminate C;
    try (destruct sx; discriminate C); try (destruct sy; discriminate C);
    try (destruct sx, sy; discriminate C).
Qed.

Lemma le_zero_lt_1000 (x : number) :
  (x <=? 0) = true -> (x <? 1000) = true /\ is_nan x = false.
Proof.
  rewrite leb_spec, ltb_spec, is_nan_spec, Prim2SF_zero, Prim2SF_1000.
  unfold SFleb, SFltb.
  destruct (Prim2SF x) as [s|s| |s m e]; cbn [SFcompare]; try discriminate; auto.
  - destruct s; auto; discriminate.
  - destruct s; auto; discriminate.
Qed.

Lemma ge_1000_ge_zero (x : number) :
  (x >=? 1000) = true -> (x >=? 0) = true.
Proof.
  unfold JS.ge. rewrite !leb_spec, Prim2SF_zero, Prim2SF_1000.
  unfold SFleb.
  destruct (Prim2SF x) as [s|s| |s m e]; cbn [SFcompare]; try discriminate; auto;
    destruct s; auto.
Qed.

Lemma ge_1000_nonzero (x : number) :
  (x >=? 1000) = true -> (x =? 0) = false.
Proof.
  unfold JS.ge. rewrite leb_spec, FloatAxioms.eqb_spec, Prim2SF_zero, Prim2SF_1000.
  unfold SFleb, SFeqb.
  destruct (Prim2SF x) as [s|s| |s m e]; cbn [SFcompare]; try discriminate; auto.
  - destruct s; auto.
  - destruct s; auto.
Qed.

(** ** Interest rate *)

Section InterestRate.

Variables (fico : number) (experience : string).

(** The cases of the rate: the first FICO tier reached, then the experience. *)
Ltac rate_cases :=
  unfold loanFormulas.interestRate;
  destruct (fico >=? 750); [|destruct (fico >=? 700); [|destruct (fico >=? 650)]];
  (destruct (String.eqb experience "Professional");
   [|destruct (String.eqb experience "Experienced")]).

Lemma interestRate_refines_spec :
  loanFormulas.interestRate fico experience = spec_interestRate fico experience.
Proof.
  unfold spec_interestRate, highestTier, experienceDiscount, qualifies; simpl.
  rate_cases; reflexivity.
Qed.

Lemma interestRate_floor :
  (loanFormulas.interestRate fico experience >=? 6.0) = true.
Proof. rate_cases; vm_compute; reflexivity. Qed.


Lemma interestRate_rounded_floor :
  (Math_round (loanFormulas.interestRate fico experience * 100) / 100 >=? 6.0) = true.
Proof. rate_cases; vm_compute; reflexivity. Qed.

Lemma highestTier_qualifies (t : FicoTier) :
  highestTier fico = Some t -> qualifies fico t = true.
Proof.
  intros H. apply (find_some _ _ H).
Qed.

Lemma highestTier_is_first (t t' : FicoTier) :
  highestTier fico = Some t -> qualifies fico t' = true ->
  (tierThreshold t' <=? tierThreshold t) = true.
Proof.
  unfold highestTier; simpl. intros H Q.
  destruct (qualifies fico Fico750) eqn:Q1.
  { injection H as <-. destruct t'; vm_compute; reflexivity. }
  destruct (qualifies fico Fico700) eqn:Q2.
  { injection H as <-. destruct t'; try (vm_compute; reflexivity). congruence. }
  destruct (qualifies fico Fico650) eqn:Q3; [|discriminate].
  injection H as <-. destruct t'; try (vm_compute; reflexivity); congruence.
Qed.

Lemma highestTier_none :
  highestTier fico = None -> forall t, qualifies fico t = false.
Proof.
  intros H t. apply (find_none _ _ H). destruct t; simpl; auto.
Qed.

Lemma highestTier_750 :
  highestTier fico = Some Fico750 <-> (fico >=? 750) = true.
Proof.
  unfold highestTier; simpl. change (qualifies fico Fico750) with (fico >=? 750).
  destruct (fico >=? 750).
  - split; reflexivity.
  - split; [|discriminate].
    destruct (qualifies fico Fico700); [discriminate|].
    destruct (qualifies fico Fico650); discriminate.
Qed.

End InterestRate.

(** C3: the interest rate is the base rate 8.5 less the discount of the one
    highest FICO tier the borrower reaches (1.5 from 750, 1.0 from 700, 0.5
    from 650, which never add up) less the experience discount (0.5 for
    Professional, 0.25 for Experienced), and never below 6.0, before and
    after it is rounded to two decimals; the tier of a score is the first
    that it reaches, and scores 749, 750 and 751 get the 750 discount from
    750 on only. *)
Theorem interestRate_tiers_and_floor :
  forall (rules : ValidationRules) (data : LoanSizerForm),
    let fico := data.(borrowerFico) in
    let experience := data.(borrowerExperience) in
    let rate := Locals.interestRate (calculateLoan_locals data) in
    rate = Math_max
             (less (less 8.5 (option_map tierDiscount (highestTier fico)))
                   (experienceDiscount experience))
             6.0
    /\ (forall t, highestTier fico = Some t ->
          qualifies fico t = true
          /\ forall t', qualifies fico t' = true ->
                        (tierThreshold t' <=? tierThreshold t) = true)
    /\ (highestTier fico = None -> forall t, qualifies fico t = false)
    /\ (rate >=? 6.0) = true
    /\ (Loan.interestRate (calculateLoan rules data) >=? 6.0) = true
    /\ (highestTier fico = Some Fico750 <-> (fico >=? 750) = true)
    /\ (highestTier 749 = Some Fico700
        /\ highestTier 750 = Some Fico750
        /\ highestTier 751 = Some Fico750)
    /\ (forall e,
          loanFormulas.interestRate 749 e
          = Math_max (less (8.5 - 1.0) (experienceDiscount e)) 6.0
          /\ loanFormulas.interestRate 750 e
             = Math_max (less (8.5 - 1.5) (experienceDiscount e)) 6.0
          /\ loanFormulas.interestRate 751 e
             = Math_max (less (8.5 - 1.5) (experienceDiscount e)) 6.0).
Proof.
  intros rules data fico experience rate. repeat split.
  - apply interestRate_refines_spec.
  - eapply highestTier_qualifies; eassumption.
  - intros t'. eapply highestTier_is_first; eassumption.
  - apply highestTier_none.
  - apply interestRate_floor.
  - apply interestRate_rounded_floor.
  - apply highestTier_750.
  - apply highestTier_750.
  - rewrite interestRate_refines_spec. reflexivity.
  - rewrite interestRate_refines_spec. reflexivity.
  - rewrite interestRate_refines_spec. reflexivity.
Qed.

(** ** Monthly payment *)


(** ** Validation *)

Section Validation.

Variables (rules : ValidationRules) (data : LoanSizerForm).

Ltac check_cases :=
  unfold when, ficoMessage, rehabMessage, arvMessage;
  destruct (ficoViolated rules data), (rehabViolated rules data),
    (arvViolated rules data); cbn [app In].

Ltac reported H :=
  split; intros H; try reflexivity; try discriminate H; auto;
  repeat (destruct H as [H|H]; try discriminate H); try contradiction.

Lemma validateInputs_collects :
  validateInputs rules data =
    when (ficoViolated rules data) (ficoMessage rules)
    ++ when (rehabViolated rules data) rehabMessage
    ++ when (arvViolated rules data) arvMessage.
Proof.
  unfold validateInputs, ficoViolated, rehabViolated, arvViolated, when.
  destruct (borrowerFico data <? minFico rules);
    destruct (rehabBudget data >? maxRehabBudget rules (purchasePrice data));
    destruct (arv data / purchasePrice data <? minArvToPurchaseRatio rules);
    reflexivity.
Qed.

Lemma validateInputs_nil :
  validateInputs rules data = [] <->
  ficoViolated rules data = false
  /\ rehabViolated rules data = false
  /\ arvViolated rules data = false.
Proof.
  rewrite validateInputs_collects. check_cases; split;
    try discriminate; try (intros (? & ? & ?); discriminate); auto.
Qed.

Lemma ficoMessage_reported :
  In (ficoMessage rules) (validateInputs rules data) <-> ficoViolated rules data = true.
Proof. rewrite validateInputs_collects. check_cases; reported H. Qed.

Lemma rehabMessage_reported :
  In rehabMessage (validateInputs rules data) <-> rehabViolated rules data = true.
Proof. rewrite validateInputs_collects. check_cases; reported H. Qed.

Lemma arvMessage_reported :
  In arvMessage (validateInputs rules data) <-> arvViolated rules data = true.
Proof. rewrite validateInputs_collects. check_cases; reported H. Qed.

End Validation.

(** C4: [validateInputs] runs its three checks (FICO minimum, rehab budget
    against the share of the purchase price, ARV to purchase price ratio)
    each on its own and returns every violated one, in that order; the list
    is empty exactly when no check is violated; a deal violating the rehab
    check and the ARV check gets both messages. *)
Theorem validateInputs_all_violations :
  forall (rules : ValidationRules) (data : LoanSizerForm),
    validateInputs rules data =
      when (ficoViolated rules data) (ficoMessage rules)
      ++ when (rehabViolated rules data) rehabMessage
      ++ when (arvViolated rules data) arvMessage
    /\ (In (ficoMessage rules) (validateInputs rules data) <-> ficoViolated rules data = true)
    /\ (In rehabMessage (validateInputs rules data) <-> rehabViolated rules data = true)
    /\ (In arvMessage (validateInputs rules data) <-> arvViolated rules data = true)
    /\ (validateInputs rules data = [] <->
        ficoViolated rules data = false
        /\ rehabViolated rules data = false
        /\ arvViolated rules data = false)
    /\ (rehabViolated rules data = true -> arvViolated rules data = true ->
        In rehabMessage (validateInputs rules data)
        /\ In arvMessage (validateInputs rules data))
    /\ rehabViolated validationRules overBudgetLowArv = true
    /\ arvViolated validationRules overBudgetLowArv = true
    /\ validateInputs validationRules overBudgetLowArv = [rehabMessage; arvMessage].
Proof.
  intros rules data.
  split; [apply validateInputs_collects|].
  split; [apply ficoMessage_reported|].
  split; [apply rehabMessage_reported|].
  split; [apply arvMessage_reported|].
  split; [apply validateInputs_nil|].
  split.
  { intros R A. split; [apply rehabMessage_reported, R|apply arvMessage_reported, A]. }
  repeat split; vm_compute; reflexivity.
Qed.

(** ** Approval status *)

(** C2: the approval status is "Approved" exactly when the FICO score
    reaches [rules.minFico], the threshold the first validation check reads,
    and "Pending Review" otherwise; with the default rules (650) a score of
    600 gives one violation, the FICO one, and "Pending Review". *)
Theorem approvalStatus_uses_minFico :
  forall (rules : ValidationRules) (data : LoanSizerForm),
    let status := Loan.approvalStatus (calculateLoan rules data) in
    (status = "Approved"%string <-> (data.(borrowerFico) >=? rules.(minFico)) = true)
    /\ (status = "Pending Review"%string <-> (data.(borrowerFico) >=? rules.(minFico)) = false)
    /\ (In (ficoMessage rules) (validateInputs rules data) <->
        (data.(borrowerFico) <? rules.(minFico)) = true)
    /\ validationRules.(minFico) = 650
    /\ validateInputs validationRules scenario600 = [ficoMessage validationRules]
    /\ Loan.approvalStatus (calculateLoan validationRules scenario600) = "Pending Review"%string.
Proof.
  intros rules data status. subst status.
  change (Loan.approvalStatus (calculateLoan rules data))
    with (if data.(borrowerFico) >=? rules.(minFico)
          then "Approved"%string else "Pending Review"%string).
  split; [|split; [|split; [|split; [|split]]]].
  - destruct (borrowerFico data >=? minFico rules); split; intros H;
      try reflexivity; discriminate H.
  - destruct (borrowerFico data >=? minFico rules); split; intros H;
      try reflexivity; discriminate H.
  - apply ficoMessage_reported.
  - reflexivity.
  - vm_compute. reflexivity.
  - vm_compute. reflexivity.
Qed.

(** ** The scenario *)

(** C5: purchase price 200000, rehab budget 50000, ARV 300000, FICO 760,
    Professional: LTV 85, maximum loan 255000, rate 6.5, closing costs 7650,
    origination fee 2550, total project cost 250000, down payment -5000,
    "Approved". *)
Theorem scenario_terms :
  forall (address transactionType : string),
    let data := {| address := address; transactionType := transactionType;
                   purchasePrice := 200000; rehabBudget := 50000; arv := 300000;
                   borrowerFico := 760; borrowerExperience := "Professional" |} in
    let loan := calculateLoan validationRules data in
    Loan.ltv loan = 85
    /\ Loan.maxLoanAmount loan = 255000
    /\ Loan.interestRate loan = 6.5
    /\ Loan.closingCosts loan = 7650
    /\ Loan.originationFee loan = 2550
    /\ Loan.totalProjectCost loan = 250000
    /\ Loan.downPayment loan = -5000
    /\ Loan.approvalStatus loan = "Approved"%string.
Proof.
  intros address transactionType data loan.
  repeat split; vm_compute; reflexivity.
Qed.

(** ** Maximum loan amount *)

(** C6: before rounding, the maximum loan amount is [arv * (ltv / 100)],
    with [ltv] the percentage looked up for the borrower's experience. *)
Theorem maxLoanAmount_formula :
  forall (data : LoanSizerForm),
    let l := calculateLoan_locals data in
    Locals.ltv l = loanFormulas.ltvByExperience data.(borrowerExperience)
    /\ Locals.maxLoanAmount l = data.(arv) * (Locals.ltv l / 100).
Proof.
  intros data l. split.
  - reflexivity.
  - unfold l, calculateLoan_locals, loanFormulas.maxLoanAmount. reflexivity.
Qed.

(** ** Rounding *)

(** [Math.round] on a number with a fractional part: the integer within one
    half of its value, the upper one at a tie. *)
Lemma Math_round_fractional (x : number) (s : bool) (m : positive) (e : Z) :
  Prim2SF x = S754_finite s m e -> (e < 0)%Z ->
  let n := round_half_up s m e in
  Math_round x = (if (n =? 0)%Z then (if s then neg_zero else zero) else of_Z n)
  /\ ((2 * n - 1) * 2 ^ (- e) <= 2 * cond_Zopp s (Zpos m) < (2 * n + 1) * 2 ^ (- e))%Z.
Proof.
  intros H He n. split.
  - unfold Math_round. rewrite H.
    destruct (Z.leb_spec 0 e) as [L|L]; [lia|reflexivity].
  - apply Binary64.round_half_up_nearest, He.
Qed.

(** [Math.round] leaves integral numbers, infinities and NaN as they are. *)
Lemma Math_round_integral (x : number) :
  (forall s m e, Prim2SF x = S754_finite s m e -> (0 <= e)%Z) ->
  Math_round x = x.
Proof.
  intros H. unfold Math_round.
  destruct (Prim2SF x) as [s|s| |s m e] eqn:E; try reflexivity.
  destruct (Z.leb_spec 0 e) as [L|L]; [reflexivity|].
  specialize (H s m e eq_refl). lia.
Qed.

Example Math_round_examples :
  Math_round 2.5 = 3 /\ Math_round (-2.5) = -2 /\ Math_round 2.4 = 2
  /\ Math_round (-0.3) = neg_zero /\ Math_round 0.49999999999999994 = 0
  /\ Math_round 1216.5 = 1217 /\ Math_round 36.494999999999997 = 36
  /\ Math_round 255000 = 255000 /\ Math_round infinity = infinity
  /\ Math_round nan = nan.
Proof. repeat split; vm_compute; reflexivity. Qed.

(** C7: every output of [calculateLoan] is the rounding of a local that was
    computed without rounding: [Math.round] for the amounts,
    [Math.round(rate * 100) / 100] for the rate, and the locals read the
    unrounded locals before them; [Math.round] gives the nearest integer,
    the upper one at a tie.  With an ARV of 1622 at 75 percent the maximum
    loan 1216.5 is shown as 1217 and the closing costs 36.495 as 36, where
    closing costs taken from the rounded loan would show 37. *)
Theorem rounding_at_the_end :
  forall (rules : ValidationRules) (data : LoanSizerForm),
    let l := calculateLoan_locals data in
    let loan := calculateLoan rules data in
    (Loan.maxLoanAmount loan = Math_round (Locals.maxLoanAmount l)
     /\ Loan.downPayment loan = Math_round (Locals.downPayment l)
     /\ Loan.closingCosts loan = Math_round (Locals.closingCosts l)
     /\ Loan.originationFee loan = Math_round (Locals.originationFee l)
     /\ Loan.monthlyPayment loan = Math_round (Locals.monthlyPayment l)
     /\ Loan.totalProjectCost loan = Math_round (Locals.totalProjectCost l)
     /\ Loan.interestRate loan = Math_round (Locals.interestRate l * 100) / 100
     /\ Loan.ltv loan = Locals.ltv l)
    /\ (Locals.maxLoanAmount l = data.(arv) * (Locals.ltv l / 100)
        /\ Locals.interestRate l
           = loanFormulas.interestRate data.(borrowerFico) data.(borrowerExperience)
        /\ Locals.closingCosts l = Locals.maxLoanAmount l * 0.03
        /\ Locals.originationFee l = Locals.maxLoanAmount l * 0.01
        /\ Locals.totalProjectCost l = data.(purchasePrice) + data.(rehabBudget)
        /\ Locals.downPayment l = Locals.totalProjectCost l - Locals.maxLoanAmount l
        /\ Locals.monthlyPayment l
           = monthlyPaymentOf (Locals.maxLoanAmount l) (Locals.interestRate l))
    /\ (forall x s m e,
          Prim2SF x = S754_finite s m e -> (e < 0)%Z ->
          let n := round_half_up s m e in
          Math_round x = (if (n =? 0)%Z then (if s then neg_zero else zero) else of_Z n)
          /\ ((2 * n - 1) * 2 ^ (- e) <= 2 * cond_Zopp s (Zpos m)
              < (2 * n + 1) * 2 ^ (- e))%Z)
    /\ (forall x,
          (forall s m e, Prim2SF x = S754_finite s m e -> (0 <= e)%Z) ->
          Math_round x = x)
    /\ (Locals.maxLoanAmount (calculateLoan_locals halfDollar) = 1216.5
        /\ Loan.maxLoanAmount (calculateLoan validationRules halfDollar) = 1217
        /\ Loan.closingCosts (calculateLoan validationRules halfDollar) = 36
        /\ Math_round (loanFormulas.closingCosts
                         (Loan.maxLoanAmount (calculateLoan validationRules halfDollar)))
           = 37).
Proof.
  intros rules data l loan.
  split; [repeat split|].
  split; [repeat split|].
  split; [apply Math_round_fractional|].
  split; [apply Math_round_integral|].
  repeat split; vm_compute; reflexivity.
Qed.

(** ** Down payment *)

(** C8: the down payment is the total project cost (purchase price plus
    rehab budget) less the maximum loan, rounded and nothing else: when the
    maximum loan exceeds the total project cost the difference is below
    zero; the scenario passes the schema and [validateInputs], and its
    stored loan has a down payment of -5000. *)
Theorem downPayment_not_clamped :
  forall (rules : ValidationRules) (data : LoanSizerForm),
    let l := calculateLoan_locals data in
    Locals.totalProjectCost l = data.(purchasePrice) + data.(rehabBudget)
    /\ Locals.downPayment l = Locals.totalProjectCost l - Locals.maxLoanAmount l
    /\ Loan.downPayment (calculateLoan rules data)
       = Math_round (Locals.totalProjectCost l - Locals.maxLoanAmount l)
    /\ ((Locals.maxLoanAmount l >? Locals.totalProjectCost l) = true ->
        (Locals.downPayment l <? 0) = true)
    /\ (loanSizerSchema scenario = []
        /\ validateInputs validationRules scenario = []
        /\ (Locals.maxLoanAmount (calculateLoan_locals scenario)
            >? Locals.totalProjectCost (calculateLoan_locals scenario)) = true
        /\ option_map Loan.downPayment
             (calculatedLoan (handleSubmit validationRules scenario initialState))
           = Some (-5000)
        /\ errors (handleSubmit validationRules scenario initialState) = []
        /\ validationErrors (handleSubmit validationRules scenario initialState) = []).
Proof.
  intros rules data l.
  split; [reflexivity|]. split; [reflexivity|]. split; [reflexivity|].
  split.
  - intros H. apply sub_neg. exact H.
  - repeat split; vm_compute; reflexivity.
Qed.

(** ** Purchase price and the division in [validateInputs] *)

Lemma schema_rejects_low_price (data : LoanSizerForm) :
  is_nan data.(purchasePrice) = false ->
  (data.(purchasePrice) <? 1000) = true ->
  In purchasePriceIssue (loanSizerSchema data).
Proof.
  intros N L. unfold loanSizerSchema.
  apply in_or_app; right. apply in_or_app; right. apply in_or_app; left.
  unfold z.number. rewrite N. cbn [flat_map]. unfold z.min. rewrite L.
  left. reflexivity.
Qed.

Lemma schema_accepts_price (data : LoanSizerForm) :
  loanSizerSchema data = [] -> (data.(purchasePrice) >=? 1000) = true.
Proof.
  unfold loanSizerSchema. intros H.
  apply app_eq_nil in H as [_ H]. apply app_eq_nil in H as [_ H].
  apply app_eq_nil in H as [H _].
  unfold z.number in H.
  destruct (is_nan (purchasePrice data)) eqn:N; [discriminate H|].
  cbn [flat_map] in H. unfold z.min in H.
  destruct (purchasePrice data <? 1000) eqn:L; [discriminate H|].
  apply leb_of_not_ltb; auto.
Qed.

Lemma schema_accepts_arv (data : LoanSizerForm) :
  loanSizerSchema data = [] -> (data.(arv) >=? 1000) = true.
Proof.
  unfold loanSizerSchema. intros H.
  apply app_eq_nil in H as [_ H]. apply app_eq_nil in H as [_ H].
  apply app_eq_nil in H as [_ H]. apply app_eq_nil in H as [_ H].
  apply app_eq_nil in H as [H _].
  unfold z.number in H.
  destruct (is_nan (arv data)) eqn:N; [discriminate H|].
  cbn [flat_map] in H. unfold z.min in H.
  destruct (arv data <? 1000) eqn:L; [discriminate H|].
  apply leb_of_not_ltb; auto.
Qed.

(** C9: a form with a purchase price of zero or less is an input-validation
    failure with a field-level message: [loanSizerSchema] reports
    "Purchase price must be at least $1,000" on [purchasePrice],
    [handleSubmit] stores it and runs neither [validateInputs] nor
    [calculateLoan]; and on any form it hands to [onSubmit] the purchase
    price is at least 1000, so the division of the ARV check of
    [validateInputs] never has a zero or negative divisor. *)
Theorem nonpositive_purchasePrice_rejected :
  forall (rules : ValidationRules) (data : LoanSizerForm) (st : PageState),
    (data.(purchasePrice) <=? 0) = true ->
    In purchasePriceIssue (loanSizerSchema data)
    /\ handleSubmit rules data st = setErrors (loanSizerSchema data) st
    /\ In purchasePriceIssue (errors (handleSubmit rules data st))
    /\ validationErrors (handleSubmit rules data st) = validationErrors st
    /\ calculatedLoan (handleSubmit rules data st) = calculatedLoan st
    /\ (forall data' st',
          handleSubmit rules data' st' = onSubmit rules data' (setErrors [] st')
          \/ handleSubmit rules data' st' = setErrors (loanSizerSchema data') st')
    /\ (forall data',
          loanSizerSchema data' = [] ->
          (data'.(purchasePrice) >=? 1000) = true
          /\ (data'.(purchasePrice) =? 0) = false).
Proof.
  intros rules data st H.
  apply le_zero_lt_1000 in H as [L N].
  pose proof (schema_rejects_low_price data N L) as I.
  assert (E : handleSubmit rules data st = setErrors (loanSizerSchema data) st).
  { unfold handleSubmit. destruct (loanSizerSchema data) as [|i issues].
    - destruct I.
    - reflexivity. }
  split; [exact I|]. split; [exact E|].
  rewrite E. cbn [errors validationErrors calculatedLoan setErrors].
  split; [exact I|]. split; [reflexivity|]. split; [reflexivity|].
  split.
  - intros data' st'. unfold handleSubmit.
    destruct (loanSizerSchema data') as [|i issues]; [left|right]; reflexivity.
  - intros data' S. pose proof (schema_accepts_price data' S) as G.
    split; [exact G|apply ge_1000_nonzero, G].
Qed.

Lemma nonpositive_purchasePrice_rejected_witness :
  (zeroPrice.(purchasePrice) <=? 0) = true
  /\ In purchasePriceIssue (errors (handleSubmit validationRules zeroPrice initialState))
  /\ calculatedLoan (handleSubmit validationRules zeroPrice initialState) = None.
Proof.
  assert (H : (zeroPrice.(purchasePrice) <=? 0) = true) by (vm_compute; reflexivity).
  split; [exact H|].
  destruct (nonpositive_purchasePrice_rejected validationRules zeroPrice initialState H)
    as (_ & _ & I & _ & C & _).
  split; [exact I|exact C].
Defined.

(** ** Loan to value *)

Lemma ltvByExperience_values (experience : string) :
  let ltv := loanFormulas.ltvByExperience experience in
  (ltv = 85 \/ ltv = 80 \/ ltv = 75 \/ ltv = 70)
  /\ (ltv >=? 70) = true /\ (ltv <=? 85) = true.
Proof.
  unfold loanFormulas.ltvByExperience.
  destruct (String.eqb experience "Professional");
    [|destruct (String.eqb experience "Experienced");
      [|destruct (String.eqb experience "Intermediate");
        [|destruct (String.eqb experience "Beginner")]]];
    cbv zeta; (split; [tauto|split; vm_compute; reflexivity]).
Qed.

Lemma ltvByExperience_default (experience : string) :
  ~ In experience ["Professional"; "Experienced"; "Intermediate"; "Beginner"]%string ->
  loanFormulas.ltvByExperience experience = 70.
Proof.
  intros H. unfold loanFormulas.ltvByExperience.
  destruct (String.eqb_spec experience "Professional") as [->|_];
    [exfalso; apply H; cbn; tauto|].
  destruct (String.eqb_spec experience "Experienced") as [->|_];
    [exfalso; apply H; cbn; tauto|].
  destruct (String.eqb_spec experience "Intermediate") as [->|_];
    [exfalso; apply H; cbn; tauto|].
  destruct (String.eqb experience "Beginner"); reflexivity.
Qed.

Lemma maxLoanAmount_bound (a : number) (experience : string) :
  (a >=? 0) = true ->
  (loanFormulas.maxLoanAmount a (loanFormulas.ltvByExperience experience) <=? 0.85 * a)
  = true.
Proof.
  intros H. unfold loanFormulas.maxLoanAmount, loanFormulas.ltvByExperience.
  destruct (String.eqb experience "Professional");
    [|destruct (String.eqb experience "Experienced");
      [|destruct (String.eqb experience "Intermediate");
        [|destruct (String.eqb experience "Beginner")]]].
  - apply (mul_le_mul a (85 / 100) 0.85 7656119366529843 7656119366529843 (-53) H);
      try (vm_compute; reflexivity). intros C; discriminate C.
  - apply (mul_le_mul a (80 / 100) 0.85 7205759403792794 7656119366529843 (-53) H);
      try (vm_compute; reflexivity). intros C; discriminate C.
  - apply (mul_le_mul a (75 / 100) 0.85 6755399441055744 7656119366529843 (-53) H);
      try (vm_compute; reflexivity). intros C; discriminate C.
  - apply (mul_le_mul a (70 / 100) 0.85 6305039478318694 7656119366529843 (-53) H);
      try (vm_compute; reflexivity). intros C; discriminate C.
  - apply (mul_le_mul a (70 / 100) 0.85 6305039478318694 7656119366529843 (-53) H);
      try (vm_compute; reflexivity). intros C; discriminate C.
Qed.

(** C10: for every experience string the LTV is 85, 80, 75 or 70, and 70,
    as for Beginner, when the string is none of the four tiers; so the LTV
    lies between 70 and 85, and for an ARV that is not negative, hence for
    every form the schema accepts, the maximum loan before rounding is at
    most [0.85 * arv]. *)
Theorem ltv_range_and_loan_bound :
  forall (data : LoanSizerForm),
    let l := calculateLoan_locals data in
    (Locals.ltv l = 85 \/ Locals.ltv l = 80 \/ Locals.ltv l = 75 \/ Locals.ltv l = 70)
    /\ (~ In data.(borrowerExperience)
          ["Professional"; "Experienced"; "Intermediate"; "Beginner"]%string ->
        Locals.ltv l = 70)
    /\ loanFormulas.ltvByExperience "Beginner" = 70
    /\ (Locals.ltv l >=? 70) = true
    /\ (Locals.ltv l <=? 85) = true
    /\ ((data.(arv) >=? 0) = true ->
        (Locals.maxLoanAmount l <=? 0.85 * data.(arv)) = true)
    /\ (loanSizerSchema data = [] ->
        (Locals.maxLoanAmount l <=? 0.85 * data.(arv)) = true).
Proof.
  intros data l.
  pose proof (ltvByExperience_values data.(borrowerExperience)) as (V & L & U).
  split; [exact V|].
  split; [apply ltvByExperience_default|].
  split; [reflexivity|].
  split; [exact L|]. split; [exact U|].
  split.
  - intros A. apply maxLoanAmount_bound, A.
  - intros S. apply maxLoanAmount_bound, ge_1000_ge_zero, schema_accepts_arv, S.
Qed.

Lemma ltv_range_and_loan_bound_witness :
  (scenario.(arv) >=? 0) = true
  /\ (Locals.maxLoanAmount (calculateLoan_locals scenario) <=? 0.85 * scenario.(arv)) = true.
Proof.
  assert (A : (scenario.(arv) >=? 0) = true) by (vm_compute; reflexivity).
  split; [exact A|].
  destruct (ltv_range_and_loan_bound scenario) as (_ & _ & _ & _ & _ & B & _).
  exact (B A).
Defined.

(** ** More facts about numbers *)

Lemma leb_trans (a b c : number) :
  (a <=? b) = true -> (b <=? c) = true -> (a <=? c) = true.
Proof. rewrite !leb_spec. apply Binary64.SFleb_trans. Qed.

Lemma ltb_leb (a b : number) : (a <? b) = true -> (a <=? b) = true.
Proof.
  rewrite ltb_spec, leb_spec. unfold SFltb, SFleb.
  destruct (SFcompare (Prim2SF a) (Prim2SF b)) as [[| |]|]; auto.
Qed.

(** [a <= b] excludes [b < a] and NaN on either side. *)
Lemma leb_not_ltb (a b : number) :
  (a <=? b) = true -> (b <? a) = false /\ is_nan a = false /\ is_nan b = false.
Proof.
  rewrite leb_spec, ltb_spec, !is_nan_spec. unfold SFleb, SFltb.
  rewrite (Binary64.SFcompare_antisym (Prim2SF a) (Prim2SF b)).
  destruct (SFcompare (Prim2SF a) (Prim2SF b)) as [[| |]|] eqn:C;
    cbn [option_map CompOpp]; try discriminate; intros _.
  all: destruct (Prim2SF a) as [sa|sa| |sa ma ea], (Prim2SF b) as [sb|sb| |sb mb eb];
    try discriminate C; auto.
Qed.

(** Of two numbers, either both comparisons [a < b] and [b <= a] fail, and
    one of them is NaN, or exactly one holds. *)
Lemma ltb_leb_cases (a b : number) :
  ((a <? b) = false /\ (b <=? a) = false /\ (is_nan a || is_nan b) = true)
  \/ ((a <? b) = true /\ (b <=? a) = false /\ (is_nan a || is_nan b) = false)
  \/ ((a <? b) = false /\ (b <=? a) = true /\ (is_nan a || is_nan b) = false).
Proof.
  destruct (is_nan a) eqn:Na.
  { left. rewrite ltb_spec, leb_spec. rewrite is_nan_spec in Na.
    destruct (Prim2SF a); try discriminate Na.
    unfold SFltb, SFleb. destruct (Prim2SF b); auto. }
  destruct (is_nan b) eqn:Nb.
  { left. rewrite ltb_spec, leb_spec. rewrite is_nan_spec in Nb.
    destruct (Prim2SF b); try discriminate Nb.
    unfold SFltb, SFleb. destruct (Prim2SF a); auto. }
  right. destruct (a <? b) eqn:L.
  - left. repeat split.
    destruct (b <=? a) eqn:G; [|reflexivity].
    destruct (leb_not_ltb b a G) as (F & _). congruence.
  - right. repeat split. apply leb_of_not_ltb; auto.
Qed.

Lemma mul_comm (a b : number) : a * b = b * a.
Proof.
  apply Prim2SF_inj. rewrite !mul_spec. apply Binary64.SFmul_comm.
Qed.

(** ** What the schema accepts *)

Lemma app_nil_iff {A} (l l' : list A) : l ++ l' = [] <-> l = [] /\ l' = [].
Proof.
  split; [apply app_eq_nil|]. intros [-> ->]. reflexivity.
Qed.

Lemma string_min_1_nil (p msg v : string) :
  z.string_min p 1 msg v = [] <-> v <> ""%string.
Proof.
  unfold z.string_min. destruct v as [|c v]; cbn.
  - split; [discriminate|]. intros H. destruct H. reflexivity.
  - split; [discriminate|reflexivity].
Qed.

Lemma enum_nil (p : string) (options : list string) (v : string) :
  z.enum p options v = [] <-> In v options.
Proof.
  unfold z.enum. destruct (existsb (String.eqb v) options) eqn:E.
  - split; [intros _|reflexivity].
    apply existsb_exists in E as (o & I & Q). apply String.eqb_eq in Q. subst o. exact I.
  - split; [discriminate|]. intros I. exfalso.
    assert (T : existsb (String.eqb v) options = true).
    { apply existsb_exists. exists v. split; [exact I|apply String.eqb_refl]. }
    congruence.
Qed.

Lemma number_min_nil (p : string) (b : number) (msg : option string) (v : number) :
  is_nan b = false ->
  z.number p [z.min p b msg] v = [] <-> (v >=? b) = true.
Proof.
  intros Nb. unfold z.number, z.min, JS.ge. cbn [flat_map]. split.
  - destruct (is_nan v) eqn:N; [discriminate|].
    destruct (v <? b) eqn:L; [discriminate|]. intros _.
    apply leb_of_not_ltb; auto.
  - intros G. destruct (leb_not_ltb b v G) as (L & _ & N). rewrite N, L. reflexivity.
Qed.

Lemma number_min_max_nil (p : string) (lo hi : number) (m1 m2 : option string) (v : number) :
  is_nan lo = false -> is_nan hi = false ->
  z.number p [z.min p lo m1; z.max p hi m2] v = []
  <-> (v >=? lo) = true /\ (v <=? hi) = true.
Proof.
  intros Nl Nh. unfold z.number, z.min, z.max, JS.ge, JS.gt. cbn [flat_map]. split.
  - destruct (is_nan v) eqn:N; [discriminate|].
    destruct (v <? lo) eqn:L; [discriminate|].
    destruct (hi <? v) eqn:U; [discriminate|]. intros _.
    split; apply leb_of_not_ltb; auto.
  - intros [G U]. destruct (leb_not_ltb lo v G) as (L & _ & N).
    destruct (leb_not_ltb v hi U) as (L' & _). rewrite N, L, L'. reflexivity.
Qed.

(** X1: the schema accepts a form exactly when the address is not empty,
    the transaction type and the experience are among the listed values,
    the purchase price and the ARV are at least 1000, the rehab budget is at
    least 0 and the FICO score lies between 300 and 850; a NaN in a number
    field fails its bound and is refused with the rest. *)
Theorem schema_accepts_iff :
  forall (data : LoanSizerForm),
    loanSizerSchema data = [] <->
    data.(address) <> ""%string
    /\ In data.(transactionType) ["Purchase"; "Refinance"; "Cash-Out Refinance"]%string
    /\ (data.(purchasePrice) >=? 1000) = true
    /\ (data.(rehabBudget) >=? 0) = true
    /\ (data.(arv) >=? 1000) = true
    /\ (data.(borrowerFico) >=? 300) = true
    /\ (data.(borrowerFico) <=? 850) = true
    /\ In data.(borrowerExperience)
         ["Beginner"; "Intermediate"; "Experienced"; "Professional"]%string.
Proof.
  intros data. unfold loanSizerSchema.
  rewrite !app_nil_iff, string_min_1_nil, !enum_nil.
  rewrite !number_min_nil by reflexivity.
  rewrite number_min_max_nil by reflexivity.
  tauto.
Qed.

Lemma string_min_one (p msg v : string) (n : nat) :
  at_most_one_on p (z.string_min p n msg v).
Proof.
  unfold z.string_min. destruct (Nat.ltb _ _); [right; eexists; split; reflexivity|left; reflexivity].
Qed.

Lemma enum_one (p : string) (options : list string) (v : string) :
  at_most_one_on p (z.enum p options v).
Proof.
  unfold z.enum. destruct (existsb _ _); [left; reflexivity|right; eexists; split; reflexivity].
Qed.

Lemma number_min_one (p : string) (b : number) (msg : option string) (v : number) :
  at_most_one_on p (z.number p [z.min p b msg] v).
Proof.
  unfold z.number, z.min. cbn [flat_map].
  destruct (is_nan v); [right; eexists; split; reflexivity|].
  destruct (v <? b); [right; eexists; split; reflexivity|left; reflexivity].
Qed.

Lemma number_min_max_one (p : string) (lo hi : number) (m1 m2 : option string) (v : number) :
  (hi <=? lo) = false ->
  at_most_one_on p (z.number p [z.min p lo m1; z.max p hi m2] v).
Proof.
  intros B. unfold z.number, z.min, z.max, JS.gt. cbn [flat_map].
  destruct (is_nan v); [right; eexists; split; reflexivity|].
  destruct (v <? lo) eqn:L; destruct (hi <? v) eqn:U;
    try (right; eexists; split; reflexivity); try (left; reflexivity).
  exfalso. apply ltb_leb in L, U. pose proof (leb_trans _ _ _ U L). congruence.
Qed.

Lemma paths_of_checks (p : string) (c : list ZodIssue) :
  at_most_one_on p c -> map path c = [] \/ map path c = [p].
Proof.
  intros [->|(i & -> & <-)]; [left|right]; reflexivity.
Qed.

(** X2: the schema raises at most one issue on a field: the paths of its
    issues are pairwise different, and there are at most seven issues. *)
Theorem schema_one_issue_per_field :
  forall (data : LoanSizerForm),
    NoDup (map path (loanSizerSchema data))
    /\ (List.length (loanSizerSchema data) <= 7)%nat.
Proof.
  intros data. unfold loanSizerSchema.
  rewrite <- (length_map path). rewrite !map_app.
  destruct (paths_of_checks _ _
              (string_min_one "address" "Address is required" data.(address) 1)) as [-> | ->];
  destruct (paths_of_checks _ _
              (enum_one "transactionType" ["Purchase"; "Refinance"; "Cash-Out Refinance"]%string
                 data.(transactionType))) as [-> | ->];
  destruct (paths_of_checks _ _
              (number_min_one "purchasePrice" 1000
                 (Some "Purchase price must be at least $1,000"%string)
                 data.(purchasePrice))) as [-> | ->];
  destruct (paths_of_checks _ _
              (number_min_one "rehabBudget" 0
                 (Some "Rehab budget cannot be negative"%string)
                 data.(rehabBudget))) as [-> | ->];
  destruct (paths_of_checks _ _
              (number_min_one "arv" 1000 (Some "ARV must be at least $1,000"%string)
                 data.(arv))) as [-> | ->];
  destruct (paths_of_checks _ _
              (number_min_max_one "borrowerFico" 300 850 None
                 (Some "FICO score must be between 300-850"%string)
                 data.(borrowerFico) eq_refl)) as [-> | ->];
  destruct (paths_of_checks _ _
              (enum_one "borrowerExperience"
                 ["Beginner"; "Intermediate"; "Experienced"; "Professional"]%string
                 data.(borrowerExperience))) as [-> | ->];
  cbn [app List.length]; (split; [|lia]);
  repeat (constructor; [cbn [In]; intuition discriminate|]); constructor.
Qed.

(** ** The submit path as a whole *)

Lemma handleSubmit_rejected (rules : ValidationRules) (data : LoanSizerForm) (st : PageState) :
  loanSizerSchema data <> [] ->
  handleSubmit rules data st = setErrors (loanSizerSchema data) st.
Proof.
  intros H. unfold handleSubmit.
  destruct (loanSizerSchema data); [destruct H|]; reflexivity.
Qed.

Lemma handleSubmit_invalid (rules : ValidationRules) (data : LoanSizerForm) (st : PageState) :
  loanSizerSchema data = [] -> validateInputs rules data <> [] ->
  handleSubmit rules data st
  = {| errors := []; validationErrors := validateInputs rules data;
       calculatedLoan := st.(calculatedLoan) |}.
Proof.
  intros S V. unfold handleSubmit, onSubmit. rewrite S.
  destruct (validateInputs rules data); [destruct V|]; reflexivity.
Qed.

Lemma handleSubmit_valid (rules : ValidationRules) (data : LoanSizerForm) (st : PageState) :
  loanSizerSchema data = [] -> validateInputs rules data = [] ->
  handleSubmit rules data st
  = {| errors := []; validationErrors := [];
       calculatedLoan := Some (calculateLoan rules data) |}.
Proof.
  intros S V. unfold handleSubmit, onSubmit. rewrite S, V. reflexivity.
Qed.

Lemma list_nil_dec {A} (l : list A) : l = [] \/ l <> [].
Proof. destruct l; [left; reflexivity|right; discriminate]. Qed.

(** X5: a submit always replaces the field errors by those of the form
    submitted; it replaces the validation messages only when the schema
    accepts the form, and the stored loan only when the schema and
    [validateInputs] both accept it; a stored loan is never removed. *)
Theorem handleSubmit_effects :
  forall (rules : ValidationRules) (data : LoanSizerForm) (st : PageState),
    let st' := handleSubmit rules data st in
    st'.(errors) = loanSizerSchema data
    /\ (loanSizerSchema data <> [] -> st'.(validationErrors) = st.(validationErrors))
    /\ (loanSizerSchema data = [] -> st'.(validationErrors) = validateInputs rules data)
    /\ (st'.(calculatedLoan) = st.(calculatedLoan)
        \/ (loanSizerSchema data = [] /\ validateInputs rules data = []
            /\ st'.(calculatedLoan) = Some (calculateLoan rules data)))
    /\ (loanSizerSchema data = [] -> validateInputs rules data = [] ->
        st'.(calculatedLoan) = Some (calculateLoan rules data))
    /\ (st.(calculatedLoan) <> None -> st'.(calculatedLoan) <> None).
Proof.
  intros rules data st st'. subst st'.
  destruct (list_nil_dec (loanSizerSchema data)) as [S|S].
  - destruct (list_nil_dec (validateInputs rules data)) as [V|V].
    + rewrite (handleSubmit_valid rules data st S V). cbn [errors validationErrors calculatedLoan].
      repeat split; auto; try congruence.
    + rewrite (handleSubmit_invalid rules data st S V). cbn [errors validationErrors calculatedLoan].
      repeat split; auto; try congruence.
  - rewrite (handleSubmit_rejected rules data st S). cbn [errors validationErrors calculatedLoan setErrors].
    repeat split; auto; try congruence.
Qed.

(** X6: submitting the same form twice leaves the state of the first
    submit, and the state after a form that passes every check does not
    depend on the state before. *)
Theorem handleSubmit_idempotent :
  forall (rules : ValidationRules) (data : LoanSizerForm) (st : PageState),
    handleSubmit rules data (handleSubmit rules data st) = handleSubmit rules data st
    /\ (forall st',
          loanSizerSchema data = [] -> validateInputs rules data = [] ->
          handleSubmit rules data st = handleSubmit rules data st').
Proof.
  intros rules data st. split.
  - destruct (list_nil_dec (loanSizerSchema data)) as [S|S].
    + destruct (list_nil_dec (validateInputs rules data)) as [V|V].
      * rewrite !(handleSubmit_valid rules data _ S V). reflexivity.
      * rewrite !(handleSubmit_invalid rules data _ S V). reflexivity.
    + rewrite !(handleSubmit_rejected rules data _ S). reflexivity.
  - intros st' S V. rewrite !(handleSubmit_valid rules data _ S V). reflexivity.
Qed.

(** ** Approval and the FICO check *)

Lemma passing_form_is_approved (rules : ValidationRules) (data : LoanSizerForm) :
  is_nan rules.(minFico) = false ->
  loanSizerSchema data = [] -> validateInputs rules data = [] ->
  Loan.approvalStatus (calculateLoan rules data) = "Approved"%string.
Proof.
  intros N S V.
  apply schema_accepts_iff in S as (_ & _ & _ & _ & _ & F & _).
  destruct (leb_not_ltb _ _ F) as (_ & _ & NF).
  apply validateInputs_nil in V as (V & _). unfold ficoViolated in V.
  change (Loan.approvalStatus (calculateLoan rules data))
    with (if data.(borrowerFico) >=? rules.(minFico)
          then "Approved"%string else "Pending Review"%string).
  unfold JS.ge. rewrite (leb_of_not_ltb _ _ NF N V). reflexivity.
Qed.

Lemma handleSubmit_keeps_approved (rules : ValidationRules) (data : LoanSizerForm)
    (st : PageState) :
  is_nan rules.(minFico) = false ->
  storedLoanApproved st -> storedLoanApproved (handleSubmit rules data st).
Proof.
  intros N H.
  destruct (handleSubmit_effects rules data st) as (_ & _ & _ & [E|(S & V & E)] & _);
    unfold storedLoanApproved; rewrite E; [exact H|].
  apply passing_form_is_approved; assumption.
Qed.

(** X3: when [minFico] is a number (not NaN), every loan the page stores is
    "Approved": a form with a FICO score under [minFico] stops at
    [validateInputs], so after any sequence of submits from the initial
    state the status "Pending Review" is never the stored one. *)
Theorem stored_loan_is_approved :
  forall (rules : ValidationRules) (forms : list LoanSizerForm),
    is_nan rules.(minFico) = false ->
    storedLoanApproved (submitAll rules forms initialState)
    /\ (forall loan,
          (submitAll rules forms initialState).(calculatedLoan) = Some loan ->
          loan.(Loan.approvalStatus) <> "Pending Review"%string).
Proof.
  intros rules forms N.
  assert (A : forall st, storedLoanApproved st -> storedLoanApproved (submitAll rules forms st)).
  { unfold submitAll. induction forms as [|data forms IH]; intros st H; cbn [fold_left].
    - exact H.
    - apply IH, handleSubmit_keeps_approved; assumption. }
  specialize (A initialState I). split; [exact A|].
  intros loan E. unfold storedLoanApproved in A. rewrite E in A. rewrite A. discriminate.
Qed.

Lemma stored_loan_is_approved_witness :
  is_nan validationRules.(minFico) = false
  /\ option_map Loan.approvalStatus
       (submitAll validationRules [scenario600; zeroPrice; scenario] initialState).(calculatedLoan)
     = Some "Approved"%string
  /\ storedLoanApproved
       (submitAll validationRules [scenario600; zeroPrice; scenario] initialState).
Proof.
  assert (N : is_nan validationRules.(minFico) = false) by (vm_compute; reflexivity).
  split; [exact N|]. split; [vm_compute; reflexivity|].
  exact (proj1 (stored_loan_is_approved validationRules [scenario600; zeroPrice; scenario] N)).
Defined.

(** X4: the FICO check of [validateInputs] and the approval status of
    [calculateLoan] disagree (no violation, yet "Pending Review") exactly
    when the score or [minFico] is NaN. *)
Theorem approval_and_fico_check_agree :
  forall (rules : ValidationRules) (data : LoanSizerForm),
    (ficoViolated rules data = false
     /\ Loan.approvalStatus (calculateLoan rules data) = "Pending Review"%string)
    <-> (is_nan data.(borrowerFico) || is_nan rules.(minFico)) = true.
Proof.
  intros rules data.
  change (Loan.approvalStatus (calculateLoan rules data))
    with (if data.(borrowerFico) >=? rules.(minFico)
          then "Approved"%string else "Pending Review"%string).
  unfold ficoViolated, JS.ge.
  destruct (ltb_leb_cases data.(borrowerFico) rules.(minFico))
    as [(L & G & N)|[(L & G & N)|(L & G & N)]]; rewrite L, G, N; split;
    try (intros [? ?]); try discriminate; auto.
Qed.

(** ** More on the interest rate *)

Ltac by_tier fico experience :=
  unfold loanFormulas.interestRate;
  destruct (fico >=? 750); [|destruct (fico >=? 700); [|destruct (fico >=? 650)]];
  (destruct (String.eqb experience "Professional");
   [|destruct (String.eqb experience "Experienced")]).

Lemma interestRate_unclamped (fico : number) (experience : string) :
  loanFormulas.interestRate fico experience
  = less (less 8.5 (option_map tierDiscount (highestTier fico)))
         (experienceDiscount experience).
Proof.
  unfold highestTier, experienceDiscount, qualifies; simpl.
  by_tier fico experience; vm_compute; reflexivity.
Qed.

Lemma interestRate_range (fico : number) (experience : string) :
  (loanFormulas.interestRate fico experience >=? 6.5) = true
  /\ (loanFormulas.interestRate fico experience <=? 8.5) = true.
Proof. by_tier fico experience; split; vm_compute; reflexivity. Qed.

Lemma interestRate_two_decimals (fico : number) (experience : string) :
  Math_round (loanFormulas.interestRate fico experience * 100) / 100
  = loanFormulas.interestRate fico experience.
Proof. by_tier fico experience; vm_compute; reflexivity. Qed.

(** X7: the rate always lies between 6.5 and 8.5, so the floor of 6.0 is
    never the value taken: the rate is the base rate less the two
    discounts, as if [Math.max] were not there; and rounding it to two
    decimals never changes it. *)
Theorem interestRate_floor_never_binds :
  forall (rules : ValidationRules) (data : LoanSizerForm),
    let rate := Locals.interestRate (calculateLoan_locals data) in
    rate = less (less 8.5 (option_map tierDiscount (highestTier data.(borrowerFico))))
                (experienceDiscount data.(borrowerExperience))
    /\ (rate >=? 6.5) = true
    /\ (rate <=? 8.5) = true
    /\ Loan.interestRate (calculateLoan rules data) = rate.
Proof.
  intros rules data rate.
  split; [apply interestRate_unclamped|].
  split; [apply interestRate_range|].
  split; [apply interestRate_range|].
  apply interestRate_two_decimals.
Qed.

(** X8: a higher FICO score never gives a higher rate, whatever the
    experience. *)
Theorem interestRate_antitone_in_fico :
  forall (fico1 fico2 : number) (experience : string),
    (fico1 <=? fico2) = true ->
    (loanFormulas.interestRate fico2 experience
     <=? loanFormulas.interestRate fico1 experience) = true.
Proof.
  intros fico1 fico2 experience H.
  assert (T : forall t, (t <=? fico1) = true -> (t <=? fico2) = true).
  { intros t L. exact (leb_trans _ _ _ L H). }
  pose proof (T 750) as T750. pose proof (T 700) as T700. pose proof (T 650) as T650.
  clear T H. unfold loanFormulas.interestRate, JS.ge.
  destruct (750 <=? fico1), (700 <=? fico1), (650 <=? fico1),
    (750 <=? fico2), (700 <=? fico2), (650 <=? fico2);
    try (specialize (T750 eq_refl); discriminate T750);
    try (specialize (T700 eq_refl); discriminate T700);
    try (specialize (T650 eq_refl); discriminate T650);
    clear T750 T700 T650;
    (destruct (String.eqb experience "Professional");
     [|destruct (String.eqb experience "Experienced")]);
    vm_compute; reflexivity.
Qed.

Lemma interestRate_antitone_in_fico_witness :
  ((699 : number) <=? 700) = true
  /\ (loanFormulas.interestRate 700 "Beginner" <=? loanFormulas.interestRate 699 "Beginner")
     = true.
Proof.
  assert (H : ((699 : number) <=? 700) = true) by (vm_compute; reflexivity).
  split; [exact H|].
  exact (interestRate_antitone_in_fico 699 700 "Beginner" H).
Defined.

(** X9: for every FICO score, a Professional borrower has the lowest rate
    and the highest LTV among all experience strings, and an Experienced
    borrower a rate and an LTV no worse than any string but Professional. *)
Theorem professional_terms_are_best :
  forall (fico : number) (experience : string),
    (loanFormulas.interestRate fico "Professional"
     <=? loanFormulas.interestRate fico experience) = true
    /\ (loanFormulas.ltvByExperience experience
        <=? loanFormulas.ltvByExperience "Professional") = true
    /\ (experience <> "Professional"%string ->
        (loanFormulas.interestRate fico "Experienced"
         <=? loanFormulas.interestRate fico experience) = true
        /\ (loanFormulas.ltvByExperience experience
            <=? loanFormulas.ltvByExperience "Experienced") = true).
Proof.
  intros fico experience.
  unfold loanFormulas.interestRate, loanFormulas.ltvByExperience.
  change (String.eqb "Professional" "Professional") with true.
  change (String.eqb "Experienced" "Professional") with false.
  change (String.eqb "Experienced" "Experienced") with true.
  destruct (String.eqb_spec experience "Professional") as [P|P].
  - split; [|split; [|intros C; destruct (C P)]];
      (destruct (fico >=? 750); [|destruct (fico >=? 700); [|destruct (fico >=? 650)]]);
      vm_compute; reflexivity.
  - split; [|split; [|intros _; split]];
      (destruct (fico >=? 750); [|destruct (fico >=? 700); [|destruct (fico >=? 650)]]);
      (destruct (String.eqb experience "Experienced");
       [|destruct (String.eqb experience "Intermediate");
         [|destruct (String.eqb experience "Beginner")]]);
      vm_compute; reflexivity.
Qed.

(** ** More on the maximum loan *)

Lemma maxLoanAmount_lower (a : number) (experience : string) :
  (a >=? 0) = true ->
  (0.7 * a <=? loanFormulas.maxLoanAmount a (loanFormulas.ltvByExperience experience))
  = true.
Proof.
  intros H. unfold loanFormulas.maxLoanAmount, loanFormulas.ltvByExperience.
  rewrite (mul_comm 0.7 a).
  destruct (String.eqb experience "Professional");
    [|destruct (String.eqb experience "Experienced");
      [|destruct (String.eqb experience "Intermediate");
        [|destruct (String.eqb experience "Beginner")]]].
  - rewrite (mul_comm a (85 / 100)).
    apply (mul_le_mul a 0.7 (85 / 100) 6305039478318694 7656119366529843 (-53) H);
      try (vm_compute; reflexivity). intros C; discriminate C.
  - rewrite (mul_comm a (80 / 100)).
    apply (mul_le_mul a 0.7 (80 / 100) 6305039478318694 7205759403792794 (-53) H);
      try (vm_compute; reflexivity). intros C; discriminate C.
  - rewrite (mul_comm a (75 / 100)).
    apply (mul_le_mul a 0.7 (75 / 100) 6305039478318694 6755399441055744 (-53) H);
      try (vm_compute; reflexivity). intros C; discriminate C.
  - rewrite (mul_comm a (70 / 100)).
    apply (mul_le_mul a 0.7 (70 / 100) 6305039478318694 6305039478318694 (-53) H);
      try (vm_compute; reflexivity). intros C; discriminate C.
  - rewrite (mul_comm a (70 / 100)).
    apply (mul_le_mul a 0.7 (70 / 100) 6305039478318694 6305039478318694 (-53) H);
      try (vm_compute; reflexivity). intros C; discriminate C.
Qed.

(** ** Products with the page's percentages *)

Lemma Prim2SF_one : Prim2SF 1 = S754_finite false 4503599627370496 (-52).
Proof. vm_compute. reflexivity. Qed.

(** Multiplying by one changes nothing. *)
Lemma mul_1_l (a : number) : 1 * a = a.
Proof.
  apply Prim2SF_inj. rewrite mul_spec, Prim2SF_one.
  pose proof (Prim2SF_valid a) as V.
  destruct (Prim2SF a) as [s|s| |s m e]; try reflexivity.
  cbn [valid_binary SpecFloat.valid_binary] in V.
  unfold SF64mul, SFmul. cbn [xorb].
  rewrite Binary64.binary_round_aux_pack.
  replace (Zpos (4503599627370496 * m)) with (Zpos m * 2 ^ Z.of_nat 52)%Z
    by (rewrite Pos2Z.inj_mul; change (2 ^ Z.of_nat 52)%Z with 4503599627370496%Z; lia).
  pose proof (Binary64.bounded_canonical m e V) as (B & _).
  pose proof V as V'. unfold bounded, canonical_mantissa in V'.
  apply andb_prop in V' as [C E]. apply Z.eqb_eq in C. apply Z.leb_le in E.
  rewrite Binary64.rounded_scaled.
  - replace (-52 + e + Z.of_nat 52)%Z with e by lia.
    rewrite (Binary64.rounded_canonical m e V). unfold Binary64.pack. cbn [fst snd].
    destruct (Z.leb_spec e (emax - prec)) as [L|L]; [reflexivity|lia].
  - lia.
  - replace (Zdigits2 (Zpos m) + (-52 + e) + Z.of_nat 52)%Z
      with (Zpos (digits2_pos m) + e)%Z by (cbn [Zdigits2]; lia).
    rewrite C. lia.
Qed.

(** A number at least zero times a positive factor is at most a factor of a
    higher binade, of a mantissa large enough, times the number. *)
Lemma mul_le_mul_binades (a c d : number) (mc md : positive) (e : Z) (k : nat) :
  (a >=? 0) = true ->
  Prim2SF c = S754_finite false mc e ->
  Prim2SF d = S754_finite false md (e + Z.of_nat k) ->
  (2 ^ 52 <= Zpos md)%Z ->
  (Zpos mc <= Zpos md * 2 ^ Z.of_nat k)%Z ->
  (a * c <=? d * a) = true.
Proof.
  intros Ha Hc Hd Hn Hm. revert Ha. unfold JS.ge.
  rewrite !leb_spec, !mul_spec, Hc, Hd, Prim2SF_zero.
  destruct (Prim2SF a) as [s|s| |s m ea]; unfold SFleb; cbn [SFcompare];
    try discriminate.
  - intros _. destruct s; reflexivity.
  - destruct s; [discriminate|reflexivity].
  - destruct s; [discriminate|]. intros _.
    unfold SF64mul, SFmul. cbn [xorb].
    replace (e + Z.of_nat k + ea)%Z with (ea + e + Z.of_nat k)%Z by lia.
    apply Binary64.binary_round_aux_mono_scaled; nia.
Qed.

(** A number at least zero times a positive finite factor is at least
    zero. *)
Lemma mul_nonneg (a c : number) (mc : positive) (e : Z) :
  (a >=? 0) = true ->
  Prim2SF c = S754_finite false mc e ->
  (a * c >=? 0) = true.
Proof.
  intros Ha Hc. revert Ha. unfold JS.ge.
  rewrite !leb_spec, !mul_spec, Hc, Prim2SF_zero.
  destruct (Prim2SF a) as [s|s| |s m ea]; unfold SFleb; cbn [SFcompare];
    try discriminate.
  - intros _. reflexivity.
  - destruct s; [discriminate|reflexivity].
  - destruct s; [discriminate|]. intros _.
    unfold SF64mul, SFmul. cbn [xorb].
    rewrite Binary64.binary_round_aux_pack. unfold Binary64.pack.
    pose proof (Binary64.rounded_nonneg (Zpos (m * mc)) (ea + e) ltac:(lia)) as N.
    destruct (fst (Binary64.rounded (Zpos (m * mc)) (ea + e))) as [|q|q];
      [reflexivity| |lia].
    destruct (Z.leb _ _); reflexivity.
Qed.

Lemma maxLoanAmount_nonneg (a : number) (experience : string) :
  (a >=? 0) = true ->
  (loanFormulas.maxLoanAmount a (loanFormulas.ltvByExperience experience) >=? 0) = true.
Proof.
  intros H. unfold loanFormulas.maxLoanAmount, loanFormulas.ltvByExperience.
  destruct (String.eqb experience "Professional");
    [|destruct (String.eqb experience "Experienced");
      [|destruct (String.eqb experience "Intermediate");
        [|destruct (String.eqb experience "Beginner")]]].
  - apply (mul_nonneg a (85 / 100) 7656119366529843 (-53) H); vm_compute; reflexivity.
  - apply (mul_nonneg a (80 / 100) 7205759403792794 (-53) H); vm_compute; reflexivity.
  - apply (mul_nonneg a (75 / 100) 6755399441055744 (-53) H); vm_compute; reflexivity.
  - apply (mul_nonneg a (70 / 100) 6305039478318694 (-53) H); vm_compute; reflexivity.
  - apply (mul_nonneg a (70 / 100) 6305039478318694 (-53) H); vm_compute; reflexivity.
Qed.

Lemma maxLoanAmount_le_arv (a : number) (experience : string) :
  (a >=? 0) = true ->
  (loanFormulas.maxLoanAmount a (loanFormulas.ltvByExperience experience) <=? a) = true.
Proof.
  intros H. rewrite <- (mul_1_l a) at 2.
  unfold loanFormulas.maxLoanAmount, loanFormulas.ltvByExperience.
  destruct (String.eqb experience "Professional");
    [|destruct (String.eqb experience "Experienced");
      [|destruct (String.eqb experience "Intermediate");
        [|destruct (String.eqb experience "Beginner")]]].
  - apply (mul_le_mul_binades a (85 / 100) 1 7656119366529843 4503599627370496 (-53) 1 H);
      vm_compute; try reflexivity; intros C; discriminate C.
  - apply (mul_le_mul_binades a (80 / 100) 1 7205759403792794 4503599627370496 (-53) 1 H);
      vm_compute; try reflexivity; intros C; discriminate C.
  - apply (mul_le_mul_binades a (75 / 100) 1 6755399441055744 4503599627370496 (-53) 1 H);
      vm_compute; try reflexivity; intros C; discriminate C.
  - apply (mul_le_mul_binades a (70 / 100) 1 6305039478318694 4503599627370496 (-53) 1 H);
      vm_compute; try reflexivity; intros C; discriminate C.
  - apply (mul_le_mul_binades a (70 / 100) 1 6305039478318694 4503599627370496 (-53) 1 H);
      vm_compute; try reflexivity; intros C; discriminate C.
Qed.

(** X10: for an ARV that is not negative, the maximum loan before rounding
    is at least [0.7 * arv], at most the ARV itself, and not negative. *)
Theorem maxLoanAmount_between :
  forall (data : LoanSizerForm),
    (data.(arv) >=? 0) = true ->
    let loan := Locals.maxLoanAmount (calculateLoan_locals data) in
    (0.7 * data.(arv) <=? loan) = true
    /\ (loan <=? data.(arv)) = true
    /\ (loan >=? 0) = true.
Proof.
  intros data H loan. split; [|split].
  - apply maxLoanAmount_lower, H.
  - apply maxLoanAmount_le_arv, H.
  - apply maxLoanAmount_nonneg, H.
Qed.

Lemma maxLoanAmount_between_witness :
  (scenario.(arv) >=? 0) = true
  /\ (0.7 * scenario.(arv) <=? Locals.maxLoanAmount (calculateLoan_locals scenario)) = true
  /\ (Locals.maxLoanAmount (calculateLoan_locals scenario) <=? scenario.(arv)) = true.
Proof.
  assert (A : (scenario.(arv) >=? 0) = true) by (vm_compute; reflexivity).
  split; [exact A|].
  destruct (maxLoanAmount_between scenario A) as (L & U & _).
  split; [exact L|exact U].
Defined.

(** ** Fees *)

(** X11: for an ARV that is not negative, before rounding, the origination
    fee is not negative and at most the closing costs, and the closing
    costs are at most the maximum loan. *)
Theorem fees_ordered :
  forall (data : LoanSizerForm),
    (data.(arv) >=? 0) = true ->
    let l := calculateLoan_locals data in
    (Locals.originationFee l >=? 0) = true
    /\ (Locals.originationFee l <=? Locals.closingCosts l) = true
    /\ (Locals.closingCosts l <=? Locals.maxLoanAmount l) = true.
Proof.
  intros data H l.
  pose proof (maxLoanAmount_nonneg data.(arv) data.(borrowerExperience) H) as N.
  change (loanFormulas.maxLoanAmount (arv data)
            (loanFormulas.ltvByExperience (borrowerExperience data)))
    with (Locals.maxLoanAmount l) in N.
  change (Locals.originationFee l) with (Locals.maxLoanAmount l * 0.01).
  change (Locals.closingCosts l) with (Locals.maxLoanAmount l * 0.03).
  set (loan := Locals.maxLoanAmount l) in *.
  split; [|split].
  - apply (mul_nonneg loan 0.01 5764607523034235 (-59) N). vm_compute; reflexivity.
  - rewrite (mul_comm loan 0.03).
    apply (mul_le_mul_binades loan 0.01 0.03 5764607523034235 8646911284551352 (-59) 1 N);
      vm_compute; try reflexivity; intros C; discriminate C.
  - rewrite <- (mul_1_l loan) at 2.
    apply (mul_le_mul_binades loan 0.03 1 8646911284551352 4503599627370496 (-58) 6 N);
      vm_compute; try reflexivity; intros C; discriminate C.
Qed.

Lemma fees_ordered_witness :
  (scenario.(arv) >=? 0) = true
  /\ (Locals.originationFee (calculateLoan_locals scenario)
      <=? Locals.closingCosts (calculateLoan_locals scenario)) = true
  /\ (Locals.closingCosts (calculateLoan_locals scenario)
      <=? Locals.maxLoanAmount (calculateLoan_locals scenario)) = true.
Proof.
  assert (A : (scenario.(arv) >=? 0) = true) by (vm_compute; reflexivity).
  split; [exact A|].
  destruct (fees_ordered scenario A) as (_ & L & U).
  split; [exact L|exact U].
Defined.

(** ** The stored loan and the term sheet *)

Lemma passes_true (rules : ValidationRules) (data : LoanSizerForm) :
  passes rules data = true <-> loanSizerSchema data = [] /\ validateInputs rules data = [].
Proof.
  unfold passes. destruct (loanSizerSchema data), (validateInputs rules data);
    split; try discriminate; try (intros [? ?]; discriminate); auto.
Qed.

Lemma handleSubmit_calculatedLoan (rules : ValidationRules) (data : LoanSizerForm)
    (st : PageState) :
  (handleSubmit rules data st).(calculatedLoan)
  = if passes rules data then Some (calculateLoan rules data) else st.(calculatedLoan).
Proof.
  destruct (passes rules data) eqn:P.
  - apply passes_true in P as [S V]. rewrite (handleSubmit_valid rules data st S V). reflexivity.
  - destruct (handleSubmit_effects rules data st) as (_ & _ & _ & [E|(S & V & _)] & _);
      [exact E|].
    assert (T : passes rules data = true) by (apply passes_true; auto). congruence.
Qed.

Lemma submitAll_snoc (rules : ValidationRules) (forms : list LoanSizerForm)
    (data : LoanSizerForm) (st : PageState) :
  submitAll rules (forms ++ [data]) st = handleSubmit rules data (submitAll rules forms st).
Proof. unfold submitAll. rewrite fold_left_app. reflexivity. Qed.

Lemma submitAll_calculatedLoan (rules : ValidationRules) (forms : list LoanSizerForm)
    (st : PageState) :
  (submitAll rules forms st).(calculatedLoan)
  = match find (passes rules) (rev forms) with
    | Some data => Some (calculateLoan rules data)
    | None => st.(calculatedLoan)
    end.
Proof.
  induction forms as [|data forms IH] using rev_ind.
  - reflexivity.
  - rewrite submitAll_snoc, handleSubmit_calculatedLoan, rev_app_distr. cbn [rev app find].
    destruct (passes rules data); [reflexivity|exact IH].
Qed.

(** X13: after any sequence of submits the stored loan is the loan of the
    latest form that passed the schema and [validateInputs], whatever was
    submitted after it; the download and the signature use that loan with
    the values the form shows at that moment, which need not be the values
    it was computed from; with no passing form so far both do nothing. *)
Theorem termSheet_uses_latest_passing_form :
  forall (rules : ValidationRules) (forms : list LoanSizerForm)
         (watchedValues : LoanSizerForm) (email : string),
    let st := submitAll rules forms initialState in
    match find (passes rules) (rev forms) with
    | Some data =>
        st.(calculatedLoan) = Some (calculateLoan rules data)
        /\ handleDownloadTermSheet watchedValues st
           = Some (termSheetData watchedValues (calculateLoan rules data) None)
        /\ (email <> ""%string ->
            handleSignTermSheet watchedValues st (Some email)
            = Some (termSheetData watchedValues (calculateLoan rules data) (Some email),
                    email))
    | None =>
        st.(calculatedLoan) = None
        /\ handleDownloadTermSheet watchedValues st = None
        /\ handleSignTermSheet watchedValues st (Some email) = None
    end
    /\ handleSignTermSheet watchedValues st None = None
    /\ handleSignTermSheet watchedValues st (Some ""%string) = None.
Proof.
  intros rules forms watchedValues email st.
  pose proof (submitAll_calculatedLoan rules forms initialState) as E. fold st in E.
  unfold handleDownloadTermSheet, handleSignTermSheet. rewrite E.
  destruct (find (passes rules) (rev forms)) as [data|]; cbn [calculatedLoan initialState].
  - repeat split; auto.
    intros N. destruct (String.eqb_spec email "") as [Q|Q]; [destruct (N Q)|reflexivity].
  - repeat split.
Qed.

(** The scenario is calculated, then the form is edited to an ARV of 400000
    and fails a later submit for a FICO score of 600: the sheet shows the
    ARV 400000 with the loan 255000 computed from 300000. *)
Example termSheet_after_edit :
  let st := submitAll validationRules [scenario; scenario600] initialState in
  option_map TermSheet.arv (handleDownloadTermSheet scenarioEdited st) = Some 400000
  /\ option_map TermSheet.maxLoanAmount (handleDownloadTermSheet scenarioEdited st)
     = Some 255000
  /\ Loan.maxLoanAmount (calculateLoan validationRules scenarioEdited) = 340000.
Proof. repeat split; vm_compute; reflexivity. Qed.

(** ** The file name of the download *)

Lemma string_forall_app (p : Ascii.ascii -> bool) (s t : string) :
  string_forall p (s ++ t) = string_forall p s && string_forall p t.
Proof.
  induction s as [|c s IH]; cbn [String.append string_forall]; [reflexivity|].
  rewrite IH. apply andb_assoc.
Qed.

Lemma string_length_app (s t : string) :
  String.length (s ++ t) = (String.length s + String.length t)%nat.
Proof.
  induction s as [|c s IH]; cbn [String.append String.length]; [reflexivity|].
  rewrite IH. reflexivity.
Qed.

Lemma digits_are_fileNameChars (u : Decimal.uint) :
  string_forall TermSheetService.fileNameChar (NilEmpty.string_of_uint u) = true.
Proof.
  induction u; cbn [NilEmpty.string_of_uint string_forall]; try reflexivity;
    rewrite IHu; reflexivity.
Qed.

Lemma replaced_are_fileNameChars (s : string) :
  string_forall TermSheetService.fileNameChar
    (TermSheetService.replace_non_alphanumeric s) = true.
Proof.
  induction s as [|c s IH]; cbn [TermSheetService.replace_non_alphanumeric string_forall];
    [reflexivity|].
  rewrite IH, andb_true_r. unfold TermSheetService.fileNameChar.
  destruct (TermSheetService.alphanumeric c) eqn:A; [rewrite A|]; reflexivity.
Qed.

Lemma replace_non_alphanumeric_length (s : string) :
  String.length (TermSheetService.replace_non_alphanumeric s) = String.length s.
Proof.
  induction s as [|c s IH]; cbn [TermSheetService.replace_non_alphanumeric String.length];
    [reflexivity|]. rewrite IH. reflexivity.
Qed.

Lemma replace_non_alphanumeric_fixed (s : string) :
  string_forall TermSheetService.keptChar s = true <->
  TermSheetService.replace_non_alphanumeric s = s.
Proof.
  induction s as [|c s IH]; cbn [TermSheetService.replace_non_alphanumeric string_forall].
  - tauto.
  - unfold TermSheetService.keptChar at 1.
    destruct (TermSheetService.alphanumeric c) eqn:A; cbn [orb andb].
    + rewrite IH. split; [intros ->; reflexivity|intros H; injection H; auto].
    + match goal with
      | |- context [Ascii.eqb c ?d] => destruct (Ascii.eqb_spec c d) as [->|N]
      end; cbn [andb].
      * rewrite IH. split; [intros ->; reflexivity|intros H; injection H; auto].
      * split; [discriminate|]. intros H. injection H as H _. congruence.
Qed.

Lemma replace_non_alphanumeric_idempotent (s : string) :
  TermSheetService.replace_non_alphanumeric (TermSheetService.replace_non_alphanumeric s)
  = TermSheetService.replace_non_alphanumeric s.
Proof.
  induction s as [|c s IH]; cbn [TermSheetService.replace_non_alphanumeric];
    [reflexivity|]. rewrite IH.
  destruct (TermSheetService.alphanumeric c) eqn:A; [rewrite A|]; reflexivity.
Qed.

(** X12: whatever the address and the time, the file name of the download
    has only letters, digits, hyphens and dots (no separator of a path, no
    space); the address keeps its length and its letters and digits, every
    other character becoming a hyphen; the addresses kept as they are are
    those of letters, digits and hyphens only. *)
Theorem fileName_is_safe :
  forall (sheet : TermSheet.t) (now : N),
    let safe := TermSheetService.replace_non_alphanumeric sheet.(TermSheet.address) in
    string_forall TermSheetService.fileNameChar (TermSheetService.fileName sheet now) = true
    /\ String.length safe = String.length sheet.(TermSheet.address)
    /\ TermSheetService.replace_non_alphanumeric safe = safe
    /\ (string_forall TermSheetService.keptChar sheet.(TermSheet.address) = true
        <-> safe = sheet.(TermSheet.address))
    /\ String.length (TermSheetService.fileName sheet now)
       = (16 + String.length sheet.(TermSheet.address)
          + String.length (NilEmpty.string_of_uint (N.to_uint now)))%nat.
Proof.
  intros sheet now safe. subst safe.
  split; [|split; [|split; [|split]]].
  - unfold TermSheetService.fileName.
    rewrite !string_forall_app, replaced_are_fileNameChars, digits_are_fileNameChars.
    reflexivity.
  - apply replace_non_alphanumeric_length.
  - apply replace_non_alphanumeric_idempotent.
  - apply replace_non_alphanumeric_fixed.
  - unfold TermSheetService.fileName.
    rewrite !string_length_app, replace_non_alphanumeric_length.
    cbn [String.length]. lia.
Qed.

(** ** The maximum loan grows with the ARV *)

(** Multiplying by a positive factor of a full mantissa keeps the order of
    numbers that are not negative. *)
Lemma mul_mono_l (a b c : number) (mc : positive) (e : Z) :
  (a >=? 0) = true -> (a <=? b) = true ->
  Prim2SF c = S754_finite false mc e -> (2 ^ 52 <= Zpos mc)%Z ->
  (a * c <=? b * c) = true.
Proof.
  intros Ha Hab Hc Hn. revert Ha Hab. unfold JS.ge.
  rewrite !leb_spec, !mul_spec, Hc, Prim2SF_zero.
  pose proof (Prim2SF_valid a) as Va. pose proof (Prim2SF_valid b) as Vb.
  destruct (Prim2SF a) as [sa|sa| |sa ma ea], (Prim2SF b) as [sb|sb| |sb mb eb];
    unfold SFleb at 1 2; cbn [SFcompare]; try discriminate;
    try (destruct sa; try discriminate); try (destruct sb; try discriminate);
    intros _ Hab; unfold SF64mul, SFmul; cbn [xorb]; try reflexivity;
    try (destruct sa; reflexivity).
  1, 2: (* zero against a finite number *)
    rewrite Binary64.binary_round_aux_pack; unfold Binary64.pack;
    pose proof (Binary64.rounded_nonneg (Zpos (mb * mc)) (eb + e) ltac:(lia)) as N;
    (destruct (fst (Binary64.rounded (Zpos (mb * mc)) (eb + e))) as [|q|q];
      [reflexivity| |lia]);
    destruct (Z.leb _ _); reflexivity.
  - (* a finite number against infinity *)
    rewrite Binary64.binary_round_aux_pack. unfold Binary64.pack.
    pose proof (Binary64.rounded_nonneg (Zpos (ma * mc)) (ea + e) ltac:(lia)) as N.
    destruct (fst (Binary64.rounded (Zpos (ma * mc)) (ea + e))) as [|q|q];
      [reflexivity| |lia].
    destruct (Z.leb _ _); reflexivity.
  - (* two finite numbers *)
    cbn [valid_binary SpecFloat.valid_binary] in Va, Vb.
    assert (L : SFleb (S754_finite false ma ea) (S754_finite false mb eb) = true)
      by exact Hab.
    destruct (Binary64.SFleb_scaled ma mb ea eb Va Vb L) as (E & M).
    replace (eb + e)%Z with (ea + e + Z.of_nat (Z.to_nat (eb - ea)))%Z by lia.
    apply Binary64.binary_round_aux_mono_scaled; [nia|].
    rewrite Z2Nat.id by lia. nia.
Qed.

Lemma maxLoanAmount_mono (a b : number) (experience : string) :
  (a >=? 0) = true -> (a <=? b) = true ->
  (loanFormulas.maxLoanAmount a (loanFormulas.ltvByExperience experience)
   <=? loanFormulas.maxLoanAmount b (loanFormulas.ltvByExperience experience)) = true.
Proof.
  intros Ha Hab. unfold loanFormulas.maxLoanAmount, loanFormulas.ltvByExperience.
  destruct (String.eqb experience "Professional");
    [|destruct (String.eqb experience "Experienced");
      [|destruct (String.eqb experience "Intermediate");
        [|destruct (String.eqb experience "Beginner")]]].
  - apply (mul_mono_l a b (85 / 100) 7656119366529843 (-53) Ha Hab);
      vm_compute; try reflexivity; intros C; discriminate C.
  - apply (mul_mono_l a b (80 / 100) 7205759403792794 (-53) Ha Hab);
      vm_compute; try reflexivity; intros C; discriminate C.
  - apply (mul_mono_l a b (75 / 100) 6755399441055744 (-53) Ha Hab);
      vm_compute; try reflexivity; intros C; discriminate C.
  - apply (mul_mono_l a b (70 / 100) 6305039478318694 (-53) Ha Hab);
      vm_compute; try reflexivity; intros C; discriminate C.
  - apply (mul_mono_l a b (70 / 100) 6305039478318694 (-53) Ha Hab);
      vm_compute; try reflexivity; intros C; discriminate C.
Qed.

(** X14: between two forms with the same experience, the one with the
    higher ARV (the lower one not negative) has, before rounding, a maximum
    loan, closing costs and an origination fee at least as high. *)
Theorem terms_grow_with_arv :
  forall (data1 data2 : LoanSizerForm),
    data1.(borrowerExperience) = data2.(borrowerExperience) ->
    (data1.(arv) >=? 0) = true ->
    (data1.(arv) <=? data2.(arv)) = true ->
    let l1 := calculateLoan_locals data1 in
    let l2 := calculateLoan_locals data2 in
    (Locals.maxLoanAmount l1 <=? Locals.maxLoanAmount l2) = true
    /\ (Locals.closingCosts l1 <=? Locals.closingCosts l2) = true
    /\ (Locals.originationFee l1 <=? Locals.originationFee l2) = true.
Proof.
  intros data1 data2 E A H l1 l2.
  pose proof (maxLoanAmount_nonneg data1.(arv) data1.(borrowerExperience) A) as N.
  pose proof (maxLoanAmount_mono data1.(arv) data2.(arv) data1.(borrowerExperience) A H) as M.
  rewrite E in M at 2.
  change (loanFormulas.maxLoanAmount (arv data1)
            (loanFormulas.ltvByExperience (borrowerExperience data1)))
    with (Locals.maxLoanAmount l1) in N, M.
  change (loanFormulas.maxLoanAmount (arv data2)
            (loanFormulas.ltvByExperience (borrowerExperience data2)))
    with (Locals.maxLoanAmount l2) in M.
  split; [exact M|split].
  - change (Locals.closingCosts l1) with (Locals.maxLoanAmount l1 * 0.03).
    change (Locals.closingCosts l2) with (Locals.maxLoanAmount l2 * 0.03).
    apply (mul_mono_l _ _ 0.03 8646911284551352 (-58) N M);
      vm_compute; try reflexivity; intros C; discriminate C.
  - change (Locals.originationFee l1) with (Locals.maxLoanAmount l1 * 0.01).
    change (Locals.originationFee l2) with (Locals.maxLoanAmount l2 * 0.01).
    apply (mul_mono_l _ _ 0.01 5764607523034235 (-59) N M);
      vm_compute; try reflexivity; intros C; discriminate C.
Qed.

Lemma terms_grow_with_arv_witness :
  scenario.(borrowerExperience) = scenarioEdited.(borrowerExperience)
  /\ (scenario.(arv) <=? scenarioEdited.(arv)) = true
  /\ (Locals.maxLoanAmount (calculateLoan_locals scenario)
      <=? Locals.maxLoanAmount (calculateLoan_locals scenarioEdited)) = true.
Proof.
  assert (A : (scenario.(arv) >=? 0) = true) by (vm_compute; reflexivity).
  assert (H : (scenario.(arv) <=? scenarioEdited.(arv)) = true) by (vm_compute; reflexivity).
  split; [reflexivity|]. split; [exact H|].
  exact (proj1 (terms_grow_with_arv scenario scenarioEdited eq_refl A H)).
Defined.
